(** * dls-analysis: the extraction pipeline of [fromZmes.ts]

    A shallow embedding of [src/from/fromZmes.ts] (tree search, variable
    assembly, metadata and settings extraction, the per-record loop) and the
    properties of it stated by the specification. *)

From Stdlib Require Import Floats.PrimFloat.
From stdpp Require Import gmap strings list fin_maps.

Open Scope string_scope.
Open Scope list_scope.

(** ** Data model *)

(** Modelled from the spec: the value type of a parameter node is declared by
    the external package [zmes-parser]; the spec gives it as
    "scalar | numeric-array".  The scalars are the JavaScript strings, numbers
    and booleans; [VFloat64Array] is a [Float64Array]; [VIntArray] stands for
    an array that is not a [Float64Array]. *)
Inductive Value : Type :=
  | VString (s : string)
  | VNumber (x : float)
  | VBoolean (b : bool)
  | VFloat64Array (data : list float)
  | VIntArray (data : list Z).

(** [ZmesFile['records'][number]['parameters']]: a named node with an optional
    value and an optional ordered array of children. *)
#[local] Unset Elimination Schemes.
Inductive ZmesParameter : Type :=
  Node {
    name : string;
    value : option Value;
    children : option (list ZmesParameter)
  }.
#[local] Set Elimination Schemes.

Record ZmesRecord : Type := {
  guid : string;
  parameters : ZmesParameter
}.

Record ZmesFile : Type := {
  records : list ZmesRecord
}.

(** JavaScript's [typeof v === 'string'], [typeof v === 'number'] and
    [v instanceof Float64Array] on a possibly undefined value, each returning
    the payload when the test succeeds. *)
Definition asString (v : option Value) : option string :=
  match v with Some (VString s) => Some s | _ => None end.

Definition asNumber (v : option Value) : option float :=
  match v with Some (VNumber x) => Some x | _ => None end.

Definition asFloat64Array (v : option Value) : option (list float) :=
  match v with Some (VFloat64Array d) => Some d | _ => None end.

(** [parameter?.value] *)
Definition valueOf (parameter : option ZmesParameter) : option Value :=
  parameter ≫= value.

(** [parameters.children ?? []] *)
Definition childrenOrEmpty (parameters : ZmesParameter) : list ZmesParameter :=
  default [] (children parameters).

(** ** Parameter tree accessor *)

(** [children.find((child) => child.name === name)] *)
Definition findParameter (children : list ZmesParameter) (name' : string)
  : option ZmesParameter :=
  List.find (fun child => String.eqb (name child) name') children.

(** The [for (const child of ...)] loop of [findParameterDeep]: the first
    child for which the search finds something decides. *)
Definition firstFound {A B : Type} (search : A → option B)
  : list A → option B :=
  fix loop (l : list A) : option B :=
    match l with
    | [] => None
    | child :: rest =>
        match search child with
        | Some found => Some found
        | None => loop rest
        end
    end.

Fixpoint findParameterDeep (parameter : ZmesParameter) (name' : string)
  : option ZmesParameter :=
  if String.eqb (name parameter) name' then Some parameter
  else
    match children parameter with
    | Some cs => firstFound (fun child => findParameterDeep child name') cs
    | None => None
    end.

(** ** Variable assembler *)

Record VariableDescriptor : Type := {
  parameterName : string;
  symbol : string;
  label : string;
  units : string;
  isDependent : bool
}.

Definition VARIABLE_DESCRIPTORS : list VariableDescriptor := [
  {| parameterName := "Sizes";
     symbol := "x";
     label := "Particle diameter";
     units := "nm";
     isDependent := false |};
  {| parameterName := "Particle Size Intensity Distribution";
     symbol := "y";
     label := "Intensity";
     units := "%";
     isDependent := true |};
  {| parameterName := "Particle Size Volume Distribution (%)";
     symbol := "v";
     label := "Volume";
     units := "%";
     isDependent := true |};
  {| parameterName := "Particle Size Number Distribution";
     symbol := "n";
     label := "Number";
     units := "%";
     isDependent := true |};
  {| parameterName := "Molecular Weights";
     symbol := "w";
     label := "Molecular weight";
     units := "Da";
     isDependent := true |};
  {| parameterName := "Diffusion Coefficients";
     symbol := "d";
     label := "Diffusion coefficient";
     units := "µm²/s";
     isDependent := true |};
  {| parameterName := "Relaxation Times";
     symbol := "r";
     label := "Relaxation time";
     units := "µs";
     isDependent := true |};
  {| parameterName := "Form Factor";
     symbol := "f";
     label := "Form factor";
     units := "";
     isDependent := true |}
].

(** [MeasurementVariable<Float64Array>] of cheminfo-types, with the five
    fields [buildVariables] fills in. *)
Module MeasurementVariable.
Record t : Type := {
  symbol : string;
  label : string;
  units : string;
  data : list float;
  isDependent : bool
}.
End MeasurementVariable.

(** A JavaScript [Map] with string keys: entries are kept in insertion order,
    [set] on a key that is present replaces its value in place. *)
Module JsMap.
Definition t (V : Type) : Type := list (string * V).

Definition empty {V : Type} : t V := [].

Fixpoint set {V : Type} (key : string) (v : V) (m : t V) : t V :=
  match m with
  | [] => [(key, v)]
  | (key', v') :: rest =>
      if String.eqb key' key then (key, v) :: rest
      else (key', v') :: set key v rest
  end.

Fixpoint get {V : Type} (key : string) (m : t V) : option V :=
  match m with
  | [] => None
  | (key', v') :: rest =>
      if String.eqb key' key then Some v' else get key rest
  end.
End JsMap.

(** One iteration of the first loop of [buildVariables]. *)
Definition collectVariable (parameters : ZmesParameter)
    (found : JsMap.t MeasurementVariable.t) (descriptor : VariableDescriptor)
  : JsMap.t MeasurementVariable.t :=
  let parameter := findParameterDeep parameters (parameterName descriptor) in
  match asFloat64Array (valueOf parameter) with
  | None => found
  | Some data =>
      JsMap.set (symbol descriptor)
        {| MeasurementVariable.symbol := symbol descriptor;
           MeasurementVariable.label := label descriptor;
           MeasurementVariable.units := units descriptor;
           MeasurementVariable.data := data;
           MeasurementVariable.isDependent := isDependent descriptor |}
        found
  end.

(** One iteration of the second loop of [buildVariables]. *)
Definition mergeVariable (variables : gmap string MeasurementVariable.t)
    (entry : string * MeasurementVariable.t)
  : gmap string MeasurementVariable.t :=
  let '(key, variable) := entry in
  if negb (String.eqb key "x") && negb (String.eqb key "y")
  then <[key := variable]> variables
  else variables.

(** [buildVariables] over an arbitrary descriptor table. *)
Definition buildVariablesWith (descriptors : list VariableDescriptor)
    (parameters : ZmesParameter)
  : option (gmap string MeasurementVariable.t) :=
  let found := foldl (collectVariable parameters) JsMap.empty descriptors in
  match JsMap.get "x" found, JsMap.get "y" found with
  | Some x, Some y =>
      let variables : gmap string MeasurementVariable.t :=
        <["y" := y]> (<["x" := x]> ∅) in
      Some (foldl mergeVariable variables found)
  | _, _ => None
  end.

Definition buildVariables (parameters : ZmesParameter)
  : option (gmap string MeasurementVariable.t) :=
  buildVariablesWith VARIABLE_DESCRIPTORS parameters.

(** ** Title *)

Definition extractTitle (parameters : ZmesParameter) : string :=
  let sampleSettings :=
    findParameter (childrenOrEmpty parameters) "Sample Settings" in
  match sampleSettings with
  | None => ""
  | Some sampleSettings =>
      let sampleName := findParameterDeep sampleSettings "Sample Name" in
      match asString (valueOf sampleName) with
      | Some s => s
      | None => ""
      end
  end.

(** ** Metadata extractor *)

Module MetaField.
Record t : Type := { parameterName : string; metaKey : string }.
End MetaField.

Definition topLevelFields : list MetaField.t := [
  {| MetaField.parameterName := "Operator Name";
     MetaField.metaKey := "operatorName" |};
  {| MetaField.parameterName := "Measurement Start Date And Time";
     MetaField.metaKey := "measurementStartDateTime" |};
  {| MetaField.parameterName := "Measurement Completed Date And Time";
     MetaField.metaKey := "measurementCompletedDateTime" |};
  {| MetaField.parameterName := "Repeat";
     MetaField.metaKey := "repeat" |};
  {| MetaField.parameterName := "Number Of Repeats";
     MetaField.metaKey := "numberOfRepeats" |};
  {| MetaField.parameterName := "Pause Between Repeats (s)";
     MetaField.metaKey := "pauseBetweenRepeats" |};
  {| MetaField.parameterName := "Quality Indicator";
     MetaField.metaKey := "qualityIndicator" |};
  {| MetaField.parameterName := "Result State";
     MetaField.metaKey := "resultState" |};
  {| MetaField.parameterName := "Measurement Type";
     MetaField.metaKey := "measurementType" |}
].

Definition deepFields : list MetaField.t := [
  {| MetaField.parameterName := "Z-Average (nm)";
     MetaField.metaKey := "zAverage" |};
  {| MetaField.parameterName := "Polydispersity Index (PI)";
     MetaField.metaKey := "polydispersityIndex" |};
  {| MetaField.parameterName := "Derived Mean Count Rate (kcps)";
     MetaField.metaKey := "derivedMeanCountRate" |}
].

(** [if (parameter?.value !== undefined) meta[key] = parameter.value] *)
Definition setIfDefined (key : string) (parameter : option ZmesParameter)
    (meta : gmap string Value) : gmap string Value :=
  match valueOf parameter with
  | Some v => <[key := v]> meta
  | None => meta
  end.

Definition extractMeta (parameters : ZmesParameter) : gmap string Value :=
  let children' := childrenOrEmpty parameters in
  let meta : gmap string Value := ∅ in
  let meta :=
    foldl (fun meta field =>
             let parameter :=
               findParameter children' (MetaField.parameterName field) in
             setIfDefined (MetaField.metaKey field) parameter meta)
          meta topLevelFields in
  let meta :=
    foldl (fun meta field =>
             let parameter :=
               findParameterDeep parameters (MetaField.parameterName field) in
             setIfDefined (MetaField.metaKey field) parameter meta)
          meta deepFields in
  let materialSettings := findParameterDeep parameters "Material Settings" in
  let meta :=
    match materialSettings with
    | Some materialSettings =>
        let materialRI := findParameterDeep materialSettings "Material RI" in
        let materialAbsorption :=
          findParameterDeep materialSettings "Material Absorption" in
        let meta := setIfDefined "materialRI" materialRI meta in
        setIfDefined "materialAbsorption" materialAbsorption meta
    | None => meta
    end in
  let dispersantViscosity :=
    findParameterDeep parameters "Dispersant Viscosity (cP)" in
  let dispersantRI := findParameterDeep parameters "Dispersant RI" in
  let meta := setIfDefined "dispersantViscosity" dispersantViscosity meta in
  setIfDefined "dispersantRI" dispersantRI meta.

(** ** Settings extractor *)

Module Software.
Record t : Type := { name : string; version : option string }.
End Software.

Module Instrument.
Record t : Type := {
  manufacturer : string;
  model : string;
  serialNumber : option string;
  software : Software.t
}.
End Instrument.

(** What the settings object holds under a key: the nested instrument object
    under ["instrument"], a number under a numeric settings key. *)
Inductive SettingsEntry : Type :=
  | InstrumentEntry (instrument : Instrument.t)
  | NumberEntry (x : float).

Module SettingsField.
Record t : Type := { parameterName : string; settingsKey : string }.
End SettingsField.

Definition instrumentSettingsFields : list SettingsField.t := [
  {| SettingsField.parameterName := "Detector Angle (°)";
     SettingsField.settingsKey := "detectorAngle" |};
  {| SettingsField.parameterName := "Run Duration (s)";
     SettingsField.settingsKey := "runDuration" |};
  {| SettingsField.parameterName := "Number Of Runs";
     SettingsField.settingsKey := "numberOfRuns" |};
  {| SettingsField.parameterName := "Temperature (°C)";
     SettingsField.settingsKey := "temperature" |};
  {| SettingsField.parameterName := "Attenuator";
     SettingsField.settingsKey := "attenuator" |};
  {| SettingsField.parameterName := "Attenuation Factor";
     SettingsField.settingsKey := "attenuationFactor" |};
  {| SettingsField.parameterName := "Cuvette Position (mm)";
     SettingsField.settingsKey := "cuvettePosition" |};
  {| SettingsField.parameterName := "Laser Wavelength (nm)";
     SettingsField.settingsKey := "laserWavelength" |}
].

(** One iteration of the loop over [instrumentSettingsFields]. *)
Definition setIfNumber (parameters : ZmesParameter)
    (settings : gmap string SettingsEntry) (field : SettingsField.t)
  : gmap string SettingsEntry :=
  let parameter :=
    findParameterDeep parameters (SettingsField.parameterName field) in
  match asNumber (valueOf parameter) with
  | Some x => <[SettingsField.settingsKey field := NumberEntry x]> settings
  | None => settings
  end.

Definition extractSettings (parameters : ZmesParameter)
  : gmap string SettingsEntry :=
  let children' := childrenOrEmpty parameters in
  let softwareVersion := findParameter children' "Software Version" in
  let instrumentSerialNumber :=
    findParameterDeep parameters "Instrument Serial Number" in
  let settings : gmap string SettingsEntry :=
    {[ "instrument" :=
         InstrumentEntry
           {| Instrument.manufacturer := "Malvern Panalytical";
              Instrument.model := "Zetasizer";
              Instrument.serialNumber :=
                asString (valueOf instrumentSerialNumber);
              Instrument.software :=
                {| Software.name := "ZS XPLORER";
                   Software.version :=
                     asString (valueOf softwareVersion) |} |} ]} in
  foldl (setIfNumber parameters) settings instrumentSettingsFields.

(** ** Record orchestrator *)

Module FromZmesOptions.
Record t : Type := {
  id : option string;
  label : option string
}.
End FromZmesOptions.

(** An entry of [analysis.spectra]. *)
Module MeasurementXY.
Record t : Type := {
  variables : gmap string MeasurementVariable.t;
  id : string;
  title : string;
  dataType : string;
  meta : gmap string Value;
  settings : option (gmap string SettingsEntry)
}.

Definition withSettings (s : gmap string SettingsEntry) (spectrum : t) : t :=
  {| variables := variables spectrum;
     id := id spectrum;
     title := title spectrum;
     dataType := dataType spectrum;
     meta := meta spectrum;
     settings := Some s |}.
End MeasurementXY.

(** Modelled from the spec: the [Analysis] container of the external package
    [common-spectrum] accumulates spectra; [pushSpectrum] appends one entry
    built from the variable set and [{ id, title, dataType, meta }], and the
    most recently appended entry can be read back to set its [settings]. *)
Module Analysis.
Record t : Type := {
  options : FromZmesOptions.t;
  spectra : list MeasurementXY.t
}.

Definition new (options : FromZmesOptions.t) : t :=
  {| options := options; spectra := [] |}.

Definition pushSpectrum (variables : gmap string MeasurementVariable.t)
    (id title dataType : string) (meta : gmap string Value) (analysis : t)
  : t :=
  {| options := options analysis;
     spectra :=
       spectra analysis ++
       [ {| MeasurementXY.variables := variables;
            MeasurementXY.id := id;
            MeasurementXY.title := title;
            MeasurementXY.dataType := dataType;
            MeasurementXY.meta := meta;
            MeasurementXY.settings := None |} ] |}.

(** [analysis.spectra.at(-1)] *)
Definition lastSpectrum (analysis : t) : option MeasurementXY.t :=
  last (spectra analysis).

(** [spectrum.settings = s] on the entry [analysis.spectra.at(-1)], which
    is the array's own last element. *)
Definition setLastSettings (s : gmap string SettingsEntry) (analysis : t)
  : t :=
  {| options := options analysis;
     spectra :=
       alter (MeasurementXY.withSettings s)
             (pred (length (spectra analysis))) (spectra analysis) |}.
End Analysis.

(** The body of the [for (const record of zmesFile.records)] loop. *)
Definition processRecord (analysis : Analysis.t) (record : ZmesRecord)
  : Analysis.t :=
  let parameters := parameters record in
  match buildVariables parameters with
  | None => analysis
  | Some variables =>
      let analysis :=
        Analysis.pushSpectrum variables (guid record)
          (extractTitle parameters) "Size measurement"
          (extractMeta parameters) analysis in
      match Analysis.lastSpectrum analysis with
      | Some _ =>
          Analysis.setLastSettings (extractSettings parameters) analysis
      | None => analysis
      end
  end.

(** [fromZmes] from the parsed file on: [parse] is the external parser. *)
Definition fromZmes (zmesFile : ZmesFile) (options : FromZmesOptions.t)
  : Analysis.t :=
  foldl processRecord (Analysis.new options) (records zmesFile).

(** ** Document order *)

(** The nodes of a tree in depth-first pre-order: the root, then the subtrees
    of its children in stored order (the traversal order of spec section 4.1,
    written independently of [findParameterDeep]). *)
Fixpoint preorder (parameter : ZmesParameter) : list ZmesParameter :=
  parameter ::
  match children parameter with
  | Some cs => flat_map preorder cs
  | None => []
  end.

Definition hasName (name' : string) (node : ZmesParameter) : bool :=
  String.eqb (name node) name'.

(** The first node in document order with the given name. *)
Definition firstInDocumentOrder (parameter : ZmesParameter) (name' : string)
  : option ZmesParameter :=
  List.find (hasName name') (preorder parameter).

(** ** Specification-side readings *)

(** The variable a descriptor resolves to in a tree: the first node in
    document order with the descriptor's parameter name, accepted only when
    its value is a [Float64Array]. *)
Definition resolve (parameters : ZmesParameter) (descriptor : VariableDescriptor)
  : option MeasurementVariable.t :=
  match asFloat64Array
          (valueOf (firstInDocumentOrder parameters (parameterName descriptor)))
  with
  | Some data =>
      Some {| MeasurementVariable.symbol := symbol descriptor;
              MeasurementVariable.label := label descriptor;
              MeasurementVariable.units := units descriptor;
              MeasurementVariable.data := data;
              MeasurementVariable.isDependent := isDependent descriptor |}
  | None => None
  end.

Definition hasSymbol (key : string) (descriptor : VariableDescriptor) : bool :=
  String.eqb (symbol descriptor) key.

(** What a table of descriptors yields for a symbol. *)
Definition resolveSymbol (descriptors : list VariableDescriptor)
    (parameters : ZmesParameter) (key : string)
  : option MeasurementVariable.t :=
  List.find (hasSymbol key) descriptors ≫= resolve parameters.

(** The six descriptors other than those of [x] and [y]. *)
Definition optionalDescriptors : list VariableDescriptor :=
  drop 2 VARIABLE_DESCRIPTORS.

(** The entry a record contributes to the collection, if any. *)
Definition spectrumOf (record : ZmesRecord) : option MeasurementXY.t :=
  match buildVariables (parameters record) with
  | Some variables =>
      Some {| MeasurementXY.variables := variables;
              MeasurementXY.id := guid record;
              MeasurementXY.title := extractTitle (parameters record);
              MeasurementXY.dataType := "Size measurement";
              MeasurementXY.meta := extractMeta (parameters record);
              MeasurementXY.settings :=
                Some (extractSettings (parameters record)) |}
  | None => None
  end.

(** A record survives when its variable set is found. *)
Definition survives (record : ZmesRecord) : bool :=
  match buildVariables (parameters record) with
  | Some _ => true
  | None => false
  end.

(** Every key [extractMeta] can write. *)
Definition metaKeys : list string :=
  (MetaField.metaKey <$> topLevelFields) ++
  (MetaField.metaKey <$> deepFields) ++
  ["materialRI"; "materialAbsorption"; "dispersantViscosity"; "dispersantRI"].

(** The material part of [extractMeta], on the map built so far. *)
Definition materialPart (parameters : ZmesParameter) (meta : gmap string Value)
  : gmap string Value :=
  match firstInDocumentOrder parameters "Material Settings" with
  | Some materialSettings =>
      setIfDefined "materialAbsorption"
        (firstInDocumentOrder materialSettings "Material Absorption")
        (setIfDefined "materialRI"
           (firstInDocumentOrder materialSettings "Material RI") meta)
  | None => meta
  end.

(** Every key [extractSettings] can write. *)
Definition settingsKeys : list string :=
  "instrument" :: (SettingsField.settingsKey <$> instrumentSettingsFields).

(** The symbols of the descriptor table, as a set. *)
Definition descriptorSymbols : gset string :=
  list_to_set (symbol <$> VARIABLE_DESCRIPTORS).

(** The first direct child of the root with the given name, read off the
    root's own [children]: the child array is there, it splits at the node,
    the node has the name and no child before it has. *)
Definition firstDirectChild (parameters : ZmesParameter) (name' : string)
    (node : ZmesParameter) : Prop :=
  ∃ cs before after,
    children parameters = Some cs ∧
    cs = before ++ node :: after ∧
    name node = name' ∧
    Forall (fun child => name child ≠ name') before.

(** The first node in document order with the given name holds the
    [Float64Array] [data]. *)
Definition holdsFloat64Array (parameters : ZmesParameter) (name' : string)
    (data : list float) : Prop :=
  ∃ node,
    firstInDocumentOrder parameters name' = Some node ∧
    value node = Some (VFloat64Array data).

(** The first node in document order with the given name is absent, or its
    value is not a [Float64Array]. *)
Definition lacksFloat64Array (parameters : ZmesParameter) (name' : string)
  : Prop :=
  firstInDocumentOrder parameters name' = None ∨
  ∃ node,
    firstInDocumentOrder parameters name' = Some node ∧
    ∀ data, value node ≠ Some (VFloat64Array data).

(** ** Sample trees *)

(** A record tree with every field the extractors read.  A second
    "Material RI" sits under "Core Characteristics", outside
    "Material Settings". *)
Definition fullTree : ZmesParameter :=
  Node "Record" None (Some [
    Node "Operator Name" (Some (VString "gbf-network")) None;
    Node "Repeat" (Some (VNumber 2%float)) None;
    Node "Software Version" (Some (VString "4.1.0.82")) None;
    Node "Sample Settings" None (Some [
      Node "Sample Name" (Some (VString "TEST XX230.A")) None;
      Node "Core Characteristics" None (Some [
        Node "Material RI" (Some (VNumber 1.25%float)) None ]);
      Node "Material Settings" None (Some [
        Node "Material RI" (Some (VNumber 1.75%float)) None;
        Node "Material Absorption" (Some (VNumber 0.125%float)) None ]) ]);
    Node "Actual Instrument Settings" None (Some [
      Node "Instrument Serial Number" (Some (VString "100038577")) None;
      Node "Detector Angle (°)" (Some (VNumber 173%float)) None;
      Node "Attenuator" (Some (VString "7")) None;
      Node "Dispersant RI" (Some (VNumber 1.375%float)) None ]);
    Node "Size Analysis Result" None (Some [
      Node "Z-Average (nm)" (Some (VNumber 489.125%float)) None;
      Node "Sizes" (Some (VFloat64Array [0.25%float; 10000%float])) None;
      Node "Particle Size Intensity Distribution"
        (Some (VFloat64Array [0%float; 100%float])) None;
      Node "Particle Size Volume Distribution (%)"
        (Some (VFloat64Array [1%float; 99%float])) None;
      Node "Molecular Weights" (Some (VIntArray [1%Z; 2%Z])) None ]) ]).

(** A tree whose first "Sizes" node holds a string; a later "Sizes" node and
    the intensity node hold [Float64Array]s. *)
Definition shadowedSizesTree : ZmesParameter :=
  Node "Record" None (Some [
    Node "Summary" None (Some [
      Node "Sizes" (Some (VString "see below")) None ]);
    Node "Sizes" (Some (VFloat64Array [0.25%float; 10000%float])) None;
    Node "Particle Size Intensity Distribution"
      (Some (VFloat64Array [0%float; 100%float])) None ]).

(** A tree with nothing the extractors read. *)
Definition bareTree : ZmesParameter := Node "Record" None None.

(** "Material RI" exists only under "Core Characteristics"; the
    "Material Settings" subtree has none. *)
Definition strayMaterialTree : ZmesParameter :=
  Node "Record" None (Some [
    Node "Core Characteristics" None (Some [
      Node "Material RI" (Some (VNumber 1.25%float)) None;
      Node "Material Absorption" (Some (VNumber 0.5%float)) None ]);
    Node "Material Settings" None (Some [
      Node "Material Name" (Some (VString "Polystyrene latex")) None ]) ]).

Definition sampleFile : ZmesFile :=
  {| records := [
       {| guid := "f5e0a56f-3426-427a-91ca-731e963cc86b"; parameters := fullTree |};
       {| guid := "00000000-0000-0000-0000-000000000002"; parameters := shadowedSizesTree |};
       {| guid := "00000000-0000-0000-0000-000000000003"; parameters := fullTree |} ] |}.

(** "Sample Settings" sits one level down, not among the root's children. *)
Definition nestedSampleTree : ZmesParameter :=
  Node "Record" None (Some [
    Node "Group" None (Some [
      Node "Sample Settings" None (Some [
        Node "Sample Name" (Some (VString "hidden")) None ]) ]) ]).

(** The "Sample Name" inside "Sample Settings" holds a number. *)
Definition numberedSampleTree : ZmesParameter :=
  Node "Record" None (Some [
    Node "Sample Settings" None (Some [
      Node "Sample Name" (Some (VNumber 7%float)) None ]) ]).

(** ** Lists and trees *)

Section TreeInduction.
Variable P : ZmesParameter → Prop.
Hypothesis leaf : ∀ n v, P (Node n v None).
Hypothesis inner : ∀ n v cs, Forall P cs → P (Node n v (Some cs)).

Lemma ZmesParameter_tree_ind : ∀ parameter, P parameter.
Proof.
  fix IH 1. intros [n v [cs|]]; [|apply leaf].
  apply inner. induction cs as [|c cs IHcs]; constructor; [apply IH | exact IHcs].
Qed.
End TreeInduction.

Lemma find_app_first {B : Type} (f : B → bool) (l1 l2 : list B) :
  List.find f (l1 ++ l2) =
  match List.find f l1 with Some b => Some b | None => List.find f l2 end.
Proof. induction l1 as [|b l1 IH]; simpl; [done|]. by destruct (f b). Qed.

Lemma find_Some_split {B : Type} (f : B → bool) (l : list B) (b : B) :
  List.find f l = Some b →
  ∃ before after,
    l = before ++ b :: after ∧ f b = true ∧ Forall (fun a => f a = false) before.
Proof.
  induction l as [|a l IH]; simpl; [done|].
  destruct (f a) eqn:Ha.
  - intros [= ->]. by exists [], l.
  - intros Hl. destruct (IH Hl) as (before & after & -> & Hb & Hbefore).
    exists (a :: before), after. split_and!; [done | done | by constructor].
Qed.

Lemma find_None_Forall {B : Type} (f : B → bool) (l : list B) :
  List.find f l = None ↔ Forall (fun a => f a = false) l.
Proof.
  induction l as [|a l IH]; simpl; [by split; [constructor|]|].
  destruct (f a) eqn:Ha.
  - split; [done|]. intros Hl. inversion_clear Hl. congruence.
  - rewrite IH. split; [by constructor | by inversion_clear 1].
Qed.

Lemma find_split_first {B : Type} (f : B → bool) (before after : list B) (b : B) :
  Forall (fun a => f a = false) before → f b = true →
  List.find f (before ++ b :: after) = Some b.
Proof.
  intros Hbefore Hb. rewrite find_app_first.
  apply find_None_Forall in Hbefore. rewrite Hbefore. simpl. by rewrite Hb.
Qed.

Lemma hasName_true name' node : hasName name' node = true ↔ name node = name'.
Proof. apply String.eqb_eq. Qed.

Lemma hasName_false name' node : hasName name' node = false ↔ name node ≠ name'.
Proof. apply String.eqb_neq. Qed.

Lemma Forall_hasName_false name' (l : list ZmesParameter) :
  Forall (fun node => hasName name' node = false) l ↔
  Forall (fun node => name node ≠ name') l.
Proof. apply Forall_proper; [|done]. intros node. apply hasName_false. Qed.

Lemma find_flat_map_firstFound {A B : Type} (f : B → bool) (g : A → list B) (l : list A) :
  List.find f (flat_map g l) = firstFound (fun a => List.find f (g a)) l.
Proof.
  induction l as [|a l IH]; simpl; [done|].
  rewrite find_app_first. destruct (List.find f (g a)); [done | exact IH].
Qed.

Lemma firstFound_ext_Forall {A B : Type} (s1 s2 : A → option B) (l : list A) :
  Forall (fun a => s1 a = s2 a) l → firstFound s1 l = firstFound s2 l.
Proof.
  induction 1 as [|a l Ha _ IH]; simpl; [done|].
  rewrite Ha, IH. done.
Qed.

(** ** The tree accessor *)

Lemma findParameterDeep_firstInDocumentOrder parameter name' :
  findParameterDeep parameter name' = firstInDocumentOrder parameter name'.
Proof.
  unfold firstInDocumentOrder.
  induction parameter as [n v | n v cs IH] using ZmesParameter_tree_ind; simpl;
    unfold hasName at 1; simpl; destruct (n =? name')%string; try done.
  rewrite find_flat_map_firstFound. by apply firstFound_ext_Forall.
Qed.

(** X1: [findParameter] looks at the given list only.  When it returns a
    node, the list splits at that node, the node has the searched name and no
    element before it has; when it returns nothing, no element of the list
    has the name (whatever their descendants are called). *)
Lemma findParameter_first (children' : list ZmesParameter) name' :
  match findParameter children' name' with
  | Some found =>
      ∃ before after,
        children' = before ++ found :: after ∧ name found = name' ∧
        Forall (fun node => name node ≠ name') before
  | None => Forall (fun node => name node ≠ name') children'
  end.
Proof.
  unfold findParameter. fold (hasName name').
  destruct (List.find _ _) as [found|] eqn:Hfind.
  - apply find_Some_split in Hfind as (before & after & -> & Hname & Hbefore).
    exists before, after. split_and!; [done | by apply hasName_true |].
    by apply Forall_hasName_false.
  - apply Forall_hasName_false. by apply find_None_Forall.
Qed.

(** C3: [findParameterDeep] is a depth-first pre-order search that checks the
    root before its children and visits the children in stored order: for
    every tree and every name it returns the first node of the pre-order
    listing whose name equals the searched name.  When it returns a node, the
    listing splits at that node, the node has the searched name and no node
    before it has; when it returns nothing, no node of the listing has the
    name.  So of two same-named nodes the one earlier in traversal order is
    returned. *)
Theorem findParameterDeep_first_in_document_order :
  ∀ (parameter : ZmesParameter) (name' : string),
    findParameterDeep parameter name' = firstInDocumentOrder parameter name' ∧
    match findParameterDeep parameter name' with
    | Some found =>
        ∃ before after,
          preorder parameter = before ++ found :: after ∧
          name found = name' ∧
          Forall (fun node => name node ≠ name') before
    | None => Forall (fun node => name node ≠ name') (preorder parameter)
    end.
Proof.
  intros parameter name'.
  split; [apply findParameterDeep_firstInDocumentOrder|].
  rewrite findParameterDeep_firstInDocumentOrder. unfold firstInDocumentOrder.
  destruct (List.find _ _) as [found|] eqn:Hfind.
  - apply find_Some_split in Hfind as (before & after & Hsplit & Hname & Hbefore).
    exists before, after. split_and!; [done | by apply hasName_true |].
    by apply Forall_hasName_false.
  - apply Forall_hasName_false. by apply find_None_Forall.
Qed.

(** ** Node values and direct children *)

Lemma valueOf_Some_iff (found : option ZmesParameter) (v : Value) :
  valueOf found = Some v ↔ ∃ node, found = Some node ∧ value node = Some v.
Proof.
  destruct found as [node|]; cbn [valueOf mbind option_bind].
  - split; [by exists node | by intros (? & [= <-] & ?)].
  - split; [done | by intros (? & ? & ?)].
Qed.

Lemma asString_Some_iff (v : option Value) (s : string) :
  asString v = Some s ↔ v = Some (VString s).
Proof.
  destruct v as [[]|]; cbn [asString]; split; try done; by intros [= ->].
Qed.

Lemma asFloat64Array_Some_iff (v : option Value) (data : list float) :
  asFloat64Array v = Some data ↔ v = Some (VFloat64Array data).
Proof.
  destruct v as [[]|]; cbn [asFloat64Array]; split; try done; by intros [= ->].
Qed.

Lemma findParameter_firstDirectChild parameters name' node :
  findParameter (childrenOrEmpty parameters) name' = Some node ↔
  firstDirectChild parameters name' node.
Proof.
  unfold findParameter, firstDirectChild. fold (hasName name'). split.
  - intros (before & after & Hsplit & Hname & Hbefore)%find_Some_split.
    destruct parameters as [n v [cs|]];
      cbn [childrenOrEmpty children default] in *.
    + exists cs, before, after.
      split_and!; [done | done | by apply hasName_true |].
      by apply Forall_hasName_false.
    + by destruct before.
  - intros (cs & before & after & Hchildren & -> & Hname & Hbefore).
    unfold childrenOrEmpty. rewrite Hchildren. cbn [default].
    apply find_split_first;
      [by apply Forall_hasName_false | by apply hasName_true].
Qed.

Lemma valueOf_findParameter_iff parameters name' v :
  valueOf (findParameter (childrenOrEmpty parameters) name') = Some v ↔
  ∃ node, firstDirectChild parameters name' node ∧ value node = Some v.
Proof.
  rewrite valueOf_Some_iff. split; intros (node & Hnode & Hvalue);
    exists node; (split; [by apply findParameter_firstDirectChild | done]).
Qed.

Lemma holdsFloat64Array_iff parameters name' data :
  asFloat64Array (valueOf (firstInDocumentOrder parameters name')) = Some data ↔
  holdsFloat64Array parameters name' data.
Proof.
  unfold holdsFloat64Array. by rewrite asFloat64Array_Some_iff, valueOf_Some_iff.
Qed.

Lemma lacksFloat64Array_iff parameters name' :
  asFloat64Array (valueOf (firstInDocumentOrder parameters name')) = None ↔
  lacksFloat64Array parameters name'.
Proof.
  unfold lacksFloat64Array.
  destruct (firstInDocumentOrder parameters name') as [node|];
    cbn [valueOf mbind option_bind].
  - split.
    + intros Hnone. right. exists node. split; [done|].
      intros data Hvalue. by rewrite Hvalue in Hnone.
    + intros [|(node' & [= <-] & Hnot)]; [done|].
      destruct (value node) as [[s|x|b|data|data]|]; try done.
      by destruct (Hnot data).
  - split; [by left | done].
Qed.

(** ** The insertion-ordered map *)

Lemma JsMap_get_set_eq {V : Type} (key : string) (v : V) (m : JsMap.t V) :
  JsMap.get key (JsMap.set key v m) = Some v.
Proof.
  induction m as [|[key' v'] m IH]; simpl; [by rewrite String.eqb_refl|].
  destruct (key' =? key)%string eqn:Hkey; simpl.
  - by rewrite String.eqb_refl.
  - by rewrite Hkey.
Qed.

Lemma JsMap_get_set_ne {V : Type} (key key0 : string) (v : V) (m : JsMap.t V) :
  key ≠ key0 → JsMap.get key0 (JsMap.set key v m) = JsMap.get key0 m.
Proof.
  intros Hne. apply String.eqb_neq in Hne.
  induction m as [|[key' v'] m IH]; simpl; [by rewrite Hne|].
  destruct (key' =? key)%string eqn:Hkey; simpl.
  - apply String.eqb_eq in Hkey as ->. by rewrite Hne.
  - by rewrite IH.
Qed.

Lemma JsMap_set_keys {V : Type} (key : string) (v : V) (m : JsMap.t V) (k : string) :
  k ∈ (JsMap.set key v m).*1 → k = key ∨ k ∈ m.*1.
Proof.
  induction m as [|[key' v'] m IH]; simpl.
  - intros Hk. apply list_elem_of_singleton in Hk. by left.
  - destruct (key' =? key)%string eqn:Hkey; simpl; rewrite !elem_of_cons.
    + intros [->|Hk]; [by left | by right; right].
    + intros [->|Hk]; [by right; left|].
      destruct (IH Hk) as [->|Hm]; [by left | by right; right].
Qed.

Lemma JsMap_set_keys_NoDup {V : Type} (key : string) (v : V) (m : JsMap.t V) :
  NoDup m.*1 → NoDup (JsMap.set key v m).*1.
Proof.
  induction m as [|[key' v'] m IH]; simpl; intros Hnd.
  - apply NoDup_singleton.
  - apply NoDup_cons in Hnd as [Hnotin Hnd].
    destruct (key' =? key)%string eqn:Hkey; simpl.
    + apply String.eqb_eq in Hkey as ->. by apply NoDup_cons.
    + apply NoDup_cons. split; [|by apply IH].
      intros Hk. apply JsMap_set_keys in Hk as [->|Hk]; [|done].
      by rewrite String.eqb_refl in Hkey.
Qed.

Lemma JsMap_get_None {V : Type} (key : string) (m : JsMap.t V) :
  key ∉ m.*1 → JsMap.get key m = None.
Proof.
  induction m as [|[key' v'] m IH]; simpl; [done|].
  intros Hnotin. apply not_elem_of_cons in Hnotin as [Hne Hnotin].
  assert ((key' =? key)%string = false) as -> by (apply String.eqb_neq; congruence).
  by apply IH.
Qed.

(** ** The variable assembler *)

Lemma collectVariable_resolve parameters found descriptor :
  collectVariable parameters found descriptor =
  match resolve parameters descriptor with
  | Some variable => JsMap.set (symbol descriptor) variable found
  | None => found
  end.
Proof.
  unfold collectVariable, resolve.
  rewrite findParameterDeep_firstInDocumentOrder.
  by destruct (asFloat64Array _).
Qed.

Lemma collect_keys_NoDup parameters descriptors found :
  NoDup found.*1 →
  NoDup (foldl (collectVariable parameters) found descriptors).*1.
Proof.
  revert found. induction descriptors as [|d ds IH]; simpl; intros found Hnd; [done|].
  apply IH. rewrite collectVariable_resolve.
  destruct (resolve parameters d); [by apply JsMap_set_keys_NoDup | done].
Qed.

Lemma hasSymbol_true key descriptor :
  hasSymbol key descriptor = true ↔ symbol descriptor = key.
Proof. apply String.eqb_eq. Qed.

Lemma find_hasSymbol_fresh key (descriptors : list VariableDescriptor) :
  key ∉ symbol <$> descriptors → List.find (hasSymbol key) descriptors = None.
Proof.
  intros Hnotin. apply find_None_Forall, Forall_forall.
  intros d Hd. destruct (hasSymbol key d) eqn:Hsym; [|done].
  apply hasSymbol_true in Hsym as <-. destruct Hnotin.
  by apply list_elem_of_fmap_2.
Qed.

(** With pairwise distinct symbols, the map collected by the first loop
    holds for each symbol what its descriptor resolves to. *)
Lemma collect_get parameters descriptors found key :
  NoDup (symbol <$> descriptors) →
  JsMap.get key (foldl (collectVariable parameters) found descriptors) =
  match resolveSymbol descriptors parameters key with
  | Some variable => Some variable
  | None =>
      match List.find (hasSymbol key) descriptors with
      | Some _ => JsMap.get key found
      | None => JsMap.get key found
      end
  end.
Proof.
  unfold resolveSymbol.
  revert found. induction descriptors as [|d ds IH]; simpl; intros found Hnd; [done|].
  apply NoDup_cons in Hnd as [Hfresh Hnd].
  rewrite (IH _ Hnd), collectVariable_resolve.
  destruct (hasSymbol key d) eqn:Hsym; simpl.
  - apply hasSymbol_true in Hsym as <-.
    rewrite (find_hasSymbol_fresh _ _ Hfresh). simpl.
    destruct (resolve parameters d); [apply JsMap_get_set_eq | done].
  - assert (symbol d ≠ key) as Hne by (by apply String.eqb_neq).
    assert (JsMap.get key
              match resolve parameters d with
              | Some variable => JsMap.set (symbol d) variable found
              | None => found
              end = JsMap.get key found) as ->.
    { destruct (resolve parameters d); [by apply JsMap_get_set_ne | done]. }
    done.
Qed.

Lemma collect_get_empty parameters descriptors key :
  NoDup (symbol <$> descriptors) →
  JsMap.get key (foldl (collectVariable parameters) JsMap.empty descriptors) =
  resolveSymbol descriptors parameters key.
Proof.
  intros Hnd. rewrite collect_get by done. simpl.
  destruct (resolveSymbol _ _ _); [done|]. by destruct (List.find _ _).
Qed.

Lemma mergeVariable_lookup (found : JsMap.t MeasurementVariable.t)
    (variables : gmap string MeasurementVariable.t) (key : string) :
  NoDup found.*1 →
  foldl mergeVariable variables found !! key =
  if negb (key =? "x")%string && negb (key =? "y")%string
  then match JsMap.get key found with
       | Some variable => Some variable
       | None => variables !! key
       end
  else variables !! key.
Proof.
  revert variables.
  induction found as [|[key' v'] found IH]; cbn [foldl JsMap.get fmap list_fmap fst];
    intros variables Hnd.
  - by destruct (negb _ && negb _).
  - apply NoDup_cons in Hnd as [Hfresh Hnd]. rewrite (IH _ Hnd).
    unfold mergeVariable.
    destruct (key' =? key)%string eqn:Hkey.
    + apply String.eqb_eq in Hkey as ->.
      rewrite (JsMap_get_None _ _ Hfresh).
      destruct (negb _ && negb _); [|done]. by rewrite lookup_insert_eq.
    + apply String.eqb_neq in Hkey.
      destruct (negb (key' =? "x")%string && negb (key' =? "y")%string);
        [by rewrite lookup_insert_ne | done].
Qed.

Lemma buildVariablesWith_resolve descriptors parameters :
  NoDup (symbol <$> descriptors) →
  buildVariablesWith descriptors parameters =
  match resolveSymbol descriptors parameters "x",
        resolveSymbol descriptors parameters "y" with
  | Some x, Some y =>
      Some (foldl mergeVariable (<["y" := y]> (<["x" := x]> ∅))
                  (foldl (collectVariable parameters) JsMap.empty descriptors))
  | _, _ => None
  end.
Proof.
  intros Hnd. unfold buildVariablesWith. by rewrite !collect_get_empty.
Qed.

Lemma buildVariablesWith_None descriptors parameters :
  NoDup (symbol <$> descriptors) →
  buildVariablesWith descriptors parameters = None ↔
  resolveSymbol descriptors parameters "x" = None ∨
  resolveSymbol descriptors parameters "y" = None.
Proof.
  intros Hnd. rewrite buildVariablesWith_resolve by done.
  destruct (resolveSymbol _ _ "x"), (resolveSymbol _ _ "y");
    split; try done; try (by left); try (by right); by intros [?|?].
Qed.

Lemma buildVariablesWith_lookup descriptors parameters variables key :
  NoDup (symbol <$> descriptors) →
  buildVariablesWith descriptors parameters = Some variables →
  variables !! key = resolveSymbol descriptors parameters key.
Proof.
  intros Hnd. rewrite buildVariablesWith_resolve by done.
  destruct (resolveSymbol _ _ "x") as [x|] eqn:Hx; [|done].
  destruct (resolveSymbol _ _ "y") as [y|] eqn:Hy; [|done].
  intros [= <-]. rewrite mergeVariable_lookup.
  2: { apply collect_keys_NoDup. apply NoDup_nil_2. }
  rewrite collect_get_empty by done.
  destruct (key =? "x")%string eqn:Hkx; simpl.
  { apply String.eqb_eq in Hkx as ->. by rewrite lookup_insert_ne, lookup_insert_eq. }
  destruct (key =? "y")%string eqn:Hky; simpl.
  { apply String.eqb_eq in Hky as ->. by rewrite lookup_insert_eq. }
  apply String.eqb_neq in Hkx, Hky.
  destruct (resolveSymbol _ _ key); [done|].
  by rewrite !lookup_insert_ne.
Qed.

Lemma VARIABLE_DESCRIPTORS_symbols_NoDup :
  NoDup (symbol <$> VARIABLE_DESCRIPTORS).
Proof. apply (bool_decide_unpack _). by vm_compute. Qed.

Lemma resolve_is_Some parameters descriptor :
  is_Some (resolve parameters descriptor) ↔
  is_Some (asFloat64Array
             (valueOf (firstInDocumentOrder parameters (parameterName descriptor)))).
Proof.
  unfold resolve. destruct (asFloat64Array _); [by split; eauto|].
  split; by intros [? ?].
Qed.

Lemma resolve_None parameters descriptor :
  resolve parameters descriptor = None ↔
  asFloat64Array
    (valueOf (firstInDocumentOrder parameters (parameterName descriptor))) = None.
Proof. unfold resolve. by destruct (asFloat64Array _). Qed.

Lemma resolveSymbol_table parameters descriptor :
  descriptor ∈ VARIABLE_DESCRIPTORS →
  resolveSymbol VARIABLE_DESCRIPTORS parameters (symbol descriptor) =
  resolve parameters descriptor.
Proof.
  unfold VARIABLE_DESCRIPTORS. rewrite !elem_of_cons, elem_of_nil.
  intros H. repeat (destruct H as [->|H]; [reflexivity|]). done.
Qed.

(** A returned variable set holds, under the symbol of each descriptor of the
    table, the variable the descriptor resolves to, and nothing else. *)
Lemma buildVariables_lookup parameters variables key :
  buildVariables parameters = Some variables →
  variables !! key = resolveSymbol VARIABLE_DESCRIPTORS parameters key.
Proof.
  apply buildVariablesWith_lookup, VARIABLE_DESCRIPTORS_symbols_NoDup.
Qed.

Lemma resolve_data_iff parameters descriptor data :
  MeasurementVariable.data <$> resolve parameters descriptor = Some data ↔
  holdsFloat64Array parameters (parameterName descriptor) data.
Proof.
  rewrite <- holdsFloat64Array_iff. unfold resolve.
  destruct (asFloat64Array _) as [data'|]; cbn; [|done].
  split; by intros [= ->].
Qed.

(** C1: [buildVariables] returns nothing exactly when the first node named
    "Sizes" in document order is absent or holds no [Float64Array], or the
    first node named "Particle Size Intensity Distribution" is absent or holds
    no [Float64Array].  Otherwise it returns a variable set: the set has [x]
    and [y], holding the two arrays, and has the symbol of each of the six
    other descriptors exactly when the first node with that descriptor's
    parameter name holds a [Float64Array] (and then holds that array).  On
    the sample tree: [x], [y] and [v] are there, the five others are not. *)
Theorem buildVariables_not_found_iff :
  ∀ parameters : ZmesParameter,
    (buildVariables parameters = None ↔
       lacksFloat64Array parameters "Sizes" ∨
       lacksFloat64Array parameters "Particle Size Intensity Distribution") ∧
    (∀ sizes intensities,
       holdsFloat64Array parameters "Sizes" sizes →
       holdsFloat64Array parameters
         "Particle Size Intensity Distribution" intensities →
       ∃ variables,
         buildVariables parameters = Some variables ∧
         MeasurementVariable.data <$> variables !! "x" = Some sizes ∧
         MeasurementVariable.data <$> variables !! "y" = Some intensities) ∧
    (∀ variables,
       buildVariables parameters = Some variables →
       is_Some (variables !! "x") ∧ is_Some (variables !! "y") ∧
       Forall (fun descriptor =>
                 (is_Some (variables !! symbol descriptor) ↔
                  ∃ data,
                    holdsFloat64Array parameters
                      (parameterName descriptor) data) ∧
                 (∀ data,
                    MeasurementVariable.data <$> variables !! symbol descriptor
                      = Some data ↔
                    holdsFloat64Array parameters
                      (parameterName descriptor) data))
              optionalDescriptors) ∧
    (fun variables : gmap string MeasurementVariable.t =>
       (fun key => MeasurementVariable.data <$> variables !! key) <$>
         ["x"; "y"; "v"; "n"; "w"; "d"; "r"; "f"])
      <$> buildVariables fullTree =
    Some [Some [0.25%float; 10000%float]; Some [0%float; 100%float];
          Some [1%float; 99%float]; None; None; None; None; None].
Proof.
  intros parameters. pose proof VARIABLE_DESCRIPTORS_symbols_NoDup as Hnd.
  assert (buildVariables parameters = None ↔
          lacksFloat64Array parameters "Sizes" ∨
          lacksFloat64Array parameters "Particle Size Intensity Distribution")
    as Hnone.
  { unfold buildVariables. rewrite buildVariablesWith_None by done.
    change (resolveSymbol VARIABLE_DESCRIPTORS parameters "x")
      with (resolve parameters
              {| parameterName := "Sizes"; symbol := "x";
                 label := "Particle diameter"; units := "nm";
                 isDependent := false |}).
    change (resolveSymbol VARIABLE_DESCRIPTORS parameters "y")
      with (resolve parameters
              {| parameterName := "Particle Size Intensity Distribution";
                 symbol := "y"; label := "Intensity"; units := "%";
                 isDependent := true |}).
    by rewrite !resolve_None, !lacksFloat64Array_iff. }
  assert (∀ variables descriptor,
            buildVariables parameters = Some variables →
            descriptor ∈ VARIABLE_DESCRIPTORS →
            variables !! symbol descriptor = resolve parameters descriptor)
    as Hentry.
  { intros variables descriptor Hbuild Hin.
    rewrite (buildVariablesWith_lookup _ _ _ _ Hnd Hbuild).
    by apply resolveSymbol_table. }
  split_and!.
  - exact Hnone.
  - intros sizes intensities Hsizes Hintensities.
    destruct (buildVariables parameters) as [variables|] eqn:Hbuild.
    + exists variables. split; [done|].
      pose proof (Hentry variables
                    {| parameterName := "Sizes"; symbol := "x";
                       label := "Particle diameter"; units := "nm";
                       isDependent := false |} eq_refl) as Hx.
      pose proof (Hentry variables
                    {| parameterName := "Particle Size Intensity Distribution";
                       symbol := "y"; label := "Intensity"; units := "%";
                       isDependent := true |} eq_refl) as Hy.
      cbn [symbol] in Hx, Hy.
      rewrite Hx by (unfold VARIABLE_DESCRIPTORS; rewrite !elem_of_cons; by left).
      rewrite Hy
        by (unfold VARIABLE_DESCRIPTORS; rewrite !elem_of_cons; by right; left).
      split; by apply resolve_data_iff.
    + exfalso. destruct Hnone as [Hlacks _].
      apply holdsFloat64Array_iff in Hsizes, Hintensities.
      destruct (Hlacks eq_refl) as [Hl|Hl]; apply lacksFloat64Array_iff in Hl;
        congruence.
  - intros variables Hbuild.
    assert (buildVariables parameters ≠ None) as Hsome by congruence.
    unfold buildVariables in Hsome.
    rewrite buildVariablesWith_None in Hsome by done.
    split_and!.
    + rewrite (buildVariablesWith_lookup _ _ _ _ Hnd Hbuild).
      destruct (resolveSymbol _ _ "x"); [eauto | destruct Hsome; by left].
    + rewrite (buildVariablesWith_lookup _ _ _ _ Hnd Hbuild).
      destruct (resolveSymbol _ _ "y"); [eauto | destruct Hsome; by right].
    + apply Forall_forall. intros descriptor Hin.
      unfold optionalDescriptors in Hin. apply (subseteq_drop 2) in Hin.
      rewrite (Hentry _ _ Hbuild Hin). split.
      * rewrite resolve_is_Some. split.
        -- intros [data Hdata]. exists data. by apply holdsFloat64Array_iff.
        -- intros [data Hdata]. exists data. by apply holdsFloat64Array_iff.
      * intros data. apply resolve_data_iff.
  - by vm_compute.
Qed.

Lemma find_hasSymbol_Permutation key (descriptors descriptors' : list VariableDescriptor) :
  NoDup (symbol <$> descriptors) → descriptors ≡ₚ descriptors' →
  List.find (hasSymbol key) descriptors = List.find (hasSymbol key) descriptors'.
Proof.
  intros Hnd Hperm. induction Hperm as [|d l l' Hperm IH|d1 d2 l|l l' l'' Hp1 IH1 Hp2 IH2].
  - done.
  - simpl. destruct (hasSymbol key d); [done|].
    apply IH. simpl in Hnd. by apply NoDup_cons in Hnd as [_ ?].
  - simpl. destruct (hasSymbol key d1) eqn:H1, (hasSymbol key d2) eqn:H2; try done.
    apply hasSymbol_true in H1, H2. simpl in Hnd.
    apply NoDup_cons in Hnd as [Hnotin _]. destruct Hnotin.
    rewrite H2, <- H1. apply list_elem_of_here.
  - rewrite IH1 by done. apply IH2. by rewrite <- Hp1.
Qed.

Lemma resolveSymbol_Permutation key parameters
    (descriptors descriptors' : list VariableDescriptor) :
  NoDup (symbol <$> descriptors) → descriptors ≡ₚ descriptors' →
  resolveSymbol descriptors parameters key =
  resolveSymbol descriptors' parameters key.
Proof.
  intros Hnd Hperm. unfold resolveSymbol.
  by rewrite (find_hasSymbol_Permutation key _ _ Hnd Hperm).
Qed.

Lemma buildVariablesWith_Permutation parameters
    (descriptors descriptors' : list VariableDescriptor) :
  NoDup (symbol <$> descriptors) → descriptors ≡ₚ descriptors' →
  buildVariablesWith descriptors' parameters =
  buildVariablesWith descriptors parameters.
Proof.
  intros Hnd Hperm.
  assert (NoDup (symbol <$> descriptors')) as Hnd' by (by rewrite <- Hperm).
  destruct (buildVariablesWith descriptors parameters) as [variables|] eqn:Hb;
    destruct (buildVariablesWith descriptors' parameters) as [variables'|] eqn:Hb'.
  - f_equal. apply map_eq. intros key.
    rewrite (buildVariablesWith_lookup _ _ _ key Hnd Hb).
    rewrite (buildVariablesWith_lookup _ _ _ key Hnd' Hb').
    symmetry. by apply resolveSymbol_Permutation.
  - apply buildVariablesWith_None in Hb'; [|done].
    rewrite <- !(resolveSymbol_Permutation _ _ _ _ Hnd Hperm) in Hb'.
    apply buildVariablesWith_None in Hb'; [|done]. congruence.
  - apply buildVariablesWith_None in Hb; [|done].
    rewrite !(resolveSymbol_Permutation _ _ _ _ Hnd Hperm) in Hb.
    apply buildVariablesWith_None in Hb; [|done]. congruence.
  - done.
Qed.

(** C9: evaluating the descriptors of the fixed table in any other order gives
    the same result, for every tree: [buildVariables] over a permutation of
    [VARIABLE_DESCRIPTORS] returns what [buildVariables] returns (nothing, or
    the same variable set); the symbols of the table are pairwise distinct. *)
Theorem buildVariables_descriptor_order_irrelevant :
  ∀ (parameters : ZmesParameter) (descriptors : list VariableDescriptor),
    VARIABLE_DESCRIPTORS ≡ₚ descriptors →
    buildVariablesWith descriptors parameters = buildVariables parameters.
Proof.
  intros parameters descriptors Hperm.
  apply buildVariablesWith_Permutation; [|done].
  apply VARIABLE_DESCRIPTORS_symbols_NoDup.
Qed.

(** The table evaluated last descriptor first, on the sample tree. *)
Lemma buildVariables_descriptor_order_irrelevant_witness :
  buildVariablesWith (reverse VARIABLE_DESCRIPTORS) fullTree =
  buildVariables fullTree.
Proof.
  apply buildVariables_descriptor_order_irrelevant.
  symmetry. apply reverse_Permutation.
Defined.

Lemma resolve_first_not_array parameters descriptor node :
  firstInDocumentOrder parameters (parameterName descriptor) = Some node →
  asFloat64Array (value node) = None →
  resolve parameters descriptor = None.
Proof. intros Hfirst Hvalue. apply resolve_None. by rewrite Hfirst. Qed.

(** C10: [buildVariables] never falls back to a later same-named node.  For a
    descriptor of the table, when the first node in document order with the
    descriptor's parameter name holds no [Float64Array], the first loop
    collects nothing for its symbol, whatever the rest of the tree holds: a
    returned variable set lacks the symbol, and nothing is returned at all
    when the symbol is [x] or [y].  There is a tree for which nothing is
    returned although a "Sizes" node holding a [Float64Array] occurs in it. *)
Theorem buildVariables_no_fallback :
  (∀ (parameters : ZmesParameter) (descriptor : VariableDescriptor)
     (node : ZmesParameter),
     descriptor ∈ VARIABLE_DESCRIPTORS →
     firstInDocumentOrder parameters (parameterName descriptor) = Some node →
     asFloat64Array (value node) = None →
     JsMap.get (symbol descriptor)
       (foldl (collectVariable parameters) JsMap.empty VARIABLE_DESCRIPTORS)
       = None ∧
     (∀ variables,
        buildVariables parameters = Some variables →
        variables !! symbol descriptor = None) ∧
     (symbol descriptor = "x" ∨ symbol descriptor = "y" →
      buildVariables parameters = None)) ∧
  (∃ (parameters later : ZmesParameter),
     buildVariables parameters = None ∧
     later ∈ preorder parameters ∧
     name later = "Sizes" ∧
     is_Some (asFloat64Array (value later))).
Proof.
  pose proof VARIABLE_DESCRIPTORS_symbols_NoDup as Hnd.
  split.
  - intros parameters descriptor node Hin Hfirst Hvalue.
    pose proof (resolve_first_not_array _ _ _ Hfirst Hvalue) as Hresolve.
    rewrite <- (resolveSymbol_table _ _ Hin) in Hresolve.
    split_and!.
    + by rewrite collect_get_empty.
    + intros variables Hbuild.
      by rewrite (buildVariablesWith_lookup _ _ _ _ Hnd Hbuild).
    + intros Hxy. apply buildVariablesWith_None; [done|].
      destruct Hxy as [Hxy|Hxy]; rewrite Hxy in Hresolve; [by left | by right].
  - exists shadowedSizesTree,
      (Node "Sizes" (Some (VFloat64Array [0.25%float; 10000%float])) None).
    split_and!.
    + apply buildVariablesWith_None; [done|]. by left.
    + simpl. rewrite !elem_of_cons. by right; right; right; left.
    + done.
    + by eexists.
Qed.

(** ** The record orchestrator *)

Lemma setLastSettings_pushSpectrum settings variables id title dataType meta analysis :
  Analysis.spectra
    (Analysis.setLastSettings settings
       (Analysis.pushSpectrum variables id title dataType meta analysis)) =
  Analysis.spectra analysis ++
  [ {| MeasurementXY.variables := variables;
       MeasurementXY.id := id;
       MeasurementXY.title := title;
       MeasurementXY.dataType := dataType;
       MeasurementXY.meta := meta;
       MeasurementXY.settings := Some settings |} ].
Proof.
  unfold Analysis.setLastSettings, Analysis.pushSpectrum. cbn [Analysis.spectra].
  rewrite length_app, Nat.add_1_r, Nat.pred_succ.
  rewrite <- (Nat.add_0_r (length (Analysis.spectra analysis))) at 1.
  by rewrite alter_app_r.
Qed.

Lemma processRecord_spectra analysis record :
  Analysis.spectra (processRecord analysis record) =
  Analysis.spectra analysis ++ option_list (spectrumOf record).
Proof.
  unfold processRecord, spectrumOf.
  destruct (buildVariables (parameters record)) as [variables|]; simpl.
  - unfold Analysis.lastSpectrum. cbn [Analysis.pushSpectrum Analysis.spectra].
    rewrite last_snoc. apply setLastSettings_pushSpectrum.
  - by rewrite app_nil_r.
Qed.

Lemma foldl_processRecord_spectra analysis (zmesRecords : list ZmesRecord) :
  Analysis.spectra (foldl processRecord analysis zmesRecords) =
  Analysis.spectra analysis ++ omap spectrumOf zmesRecords.
Proof.
  revert analysis. induction zmesRecords as [|record rest IH]; intros analysis; simpl.
  - by rewrite app_nil_r.
  - rewrite IH, processRecord_spectra, <- app_assoc. f_equal.
    by destruct (spectrumOf record).
Qed.

Lemma omap_spectrumOf_ids (zmesRecords : list ZmesRecord) :
  MeasurementXY.id <$> omap spectrumOf zmesRecords =
  guid <$> List.filter survives zmesRecords.
Proof.
  induction zmesRecords as [|record rest IH]; simpl; [done|].
  unfold spectrumOf at 1, survives at 1.
  destruct (buildVariables (parameters record)); simpl;
    [f_equal; exact IH | exact IH].
Qed.

(** C2: [fromZmes] goes through the records in file order.  The collection it
    returns holds, in that order, one entry for each record whose
    [buildVariables] result is found and none for the others (a skipped
    record leaves the collection as it was, and the function is total, so no
    error is raised); the ids of the entries are the GUIDs of the surviving
    records, verbatim and in file order. *)
Theorem fromZmes_entries :
  ∀ (zmesFile : ZmesFile) (options : FromZmesOptions.t),
    Analysis.spectra (fromZmes zmesFile options) =
      omap spectrumOf (records zmesFile) ∧
    MeasurementXY.id <$> Analysis.spectra (fromZmes zmesFile options) =
      guid <$> List.filter survives (records zmesFile) ∧
    (∀ analysis record,
       buildVariables (parameters record) = None →
       processRecord analysis record = analysis).
Proof.
  intros zmesFile options.
  assert (Analysis.spectra (fromZmes zmesFile options) =
          omap spectrumOf (records zmesFile)) as Hspectra.
  { unfold fromZmes. by rewrite foldl_processRecord_spectra. }
  split_and!; [done | |].
  - rewrite Hspectra. apply omap_spectrumOf_ids.
  - intros analysis record Hnone. unfold processRecord. by rewrite Hnone.
Qed.

(** ** Title *)

(** C6: the title is the empty string when no direct child of the record
    root is named "Sample Settings" (the root has no child array, or no
    element of it has the name).  Otherwise, with the first such child taken
    as a subtree, the title is the value of the first node named
    "Sample Name" in that subtree when that value is a string, and the empty
    string when there is no such node or its value is not a string.  On the
    sample trees: the nested name is read; a "Sample Settings" one level
    down is not looked at; a numeric "Sample Name" gives the empty string. *)
Theorem extractTitle_sample_name :
  ∀ parameters : ZmesParameter,
    (children parameters = None → extractTitle parameters = "") ∧
    (∀ cs,
       children parameters = Some cs →
       Forall (fun child => name child ≠ "Sample Settings") cs →
       extractTitle parameters = "") ∧
    (∀ sampleSettings,
       firstDirectChild parameters "Sample Settings" sampleSettings →
       (∀ sampleName s,
          firstInDocumentOrder sampleSettings "Sample Name" = Some sampleName →
          value sampleName = Some (VString s) →
          extractTitle parameters = s) ∧
       (∀ sampleName,
          firstInDocumentOrder sampleSettings "Sample Name" = Some sampleName →
          (∀ s, value sampleName ≠ Some (VString s)) →
          extractTitle parameters = "") ∧
       (firstInDocumentOrder sampleSettings "Sample Name" = None →
        extractTitle parameters = "")) ∧
    extractTitle fullTree = "TEST XX230.A" ∧
    extractTitle nestedSampleTree = "" ∧
    extractTitle numberedSampleTree = "" ∧
    extractTitle bareTree = "".
Proof.
  intros parameters. split_and!; try reflexivity.
  - intros Hchildren. unfold extractTitle, childrenOrEmpty.
    by rewrite Hchildren.
  - intros cs Hchildren Hnone.
    assert (findParameter (childrenOrEmpty parameters) "Sample Settings" = None)
      as Hfind.
    { unfold findParameter, childrenOrEmpty. rewrite Hchildren. cbn [default].
      apply find_None_Forall. eapply Forall_impl; [exact Hnone|].
      intros child Hname. by apply String.eqb_neq. }
    unfold extractTitle. by rewrite Hfind.
  - intros sampleSettings Hfirst.
    apply findParameter_firstDirectChild in Hfirst.
    unfold extractTitle. rewrite Hfirst.
    rewrite findParameterDeep_firstInDocumentOrder.
    split_and!.
    + intros sampleName s -> Hvalue. cbn [valueOf mbind option_bind].
      by rewrite Hvalue.
    + intros sampleName -> Hvalue. cbn [valueOf mbind option_bind].
      destruct (value sampleName) as [[s|x|b|data|data]|]; try done.
      by destruct (Hvalue s).
    + by intros ->.
Qed.

(** ** The metadata extractor *)

Lemma lookup_setIfDefined key parameter (meta : gmap string Value) key0 :
  setIfDefined key parameter meta !! key0 =
  if (key =? key0)%string
  then match valueOf parameter with
       | Some v => Some v
       | None => meta !! key0
       end
  else meta !! key0.
Proof.
  unfold setIfDefined. destruct (key =? key0)%string eqn:Hkey.
  - apply String.eqb_eq in Hkey as ->.
    destruct (valueOf parameter); [apply lookup_insert_eq | done].
  - apply String.eqb_neq in Hkey.
    destruct (valueOf parameter); [by apply lookup_insert_ne | done].
Qed.

Lemma lookup_setIfDefined_ne key parameter (meta : gmap string Value) key0 :
  key0 ≠ key → setIfDefined key parameter meta !! key0 = meta !! key0.
Proof.
  intros Hne. rewrite lookup_setIfDefined.
  assert ((key =? key0)%string = false) as -> by (apply String.eqb_neq; congruence).
  done.
Qed.

Lemma extractMeta_unfold parameters :
  extractMeta parameters =
  setIfDefined "dispersantRI" (firstInDocumentOrder parameters "Dispersant RI")
    (setIfDefined "dispersantViscosity"
       (firstInDocumentOrder parameters "Dispersant Viscosity (cP)")
       (materialPart parameters
          (foldl (fun meta field =>
                    setIfDefined (MetaField.metaKey field)
                      (firstInDocumentOrder parameters
                         (MetaField.parameterName field)) meta)
             (foldl (fun meta field =>
                       setIfDefined (MetaField.metaKey field)
                         (findParameter (childrenOrEmpty parameters)
                            (MetaField.parameterName field)) meta)
                ∅ topLevelFields)
             deepFields))).
Proof.
  unfold extractMeta, materialPart, deepFields.
  cbn [foldl MetaField.metaKey MetaField.parameterName].
  rewrite <- !findParameterDeep_firstInDocumentOrder.
  destruct (findParameterDeep parameters "Material Settings") as [ms|];
    [|done].
  by rewrite <- !findParameterDeep_firstInDocumentOrder.
Qed.

Lemma lookup_setIfDefined_eq key parameter (meta : gmap string Value) :
  setIfDefined key parameter meta !! key =
  match valueOf parameter with
  | Some v => Some v
  | None => meta !! key
  end.
Proof. by rewrite lookup_setIfDefined, String.eqb_refl. Qed.

Lemma lookup_materialPart_ne parameters (meta : gmap string Value) key :
  key ≠ "materialRI" → key ≠ "materialAbsorption" →
  materialPart parameters meta !! key = meta !! key.
Proof.
  intros Hri Habs. unfold materialPart.
  destruct (firstInDocumentOrder parameters "Material Settings"); [|done].
  by rewrite !lookup_setIfDefined_ne.
Qed.

Lemma lookup_materialPart_materialRI parameters (meta : gmap string Value) :
  materialPart parameters meta !! "materialRI" =
  match firstInDocumentOrder parameters "Material Settings" with
  | Some materialSettings =>
      match valueOf (firstInDocumentOrder materialSettings "Material RI") with
      | Some v => Some v
      | None => meta !! "materialRI"
      end
  | None => meta !! "materialRI"
  end.
Proof.
  unfold materialPart.
  destruct (firstInDocumentOrder parameters "Material Settings"); [|done].
  by rewrite lookup_setIfDefined_ne, lookup_setIfDefined_eq.
Qed.

Lemma lookup_materialPart_materialAbsorption parameters (meta : gmap string Value) :
  materialPart parameters meta !! "materialAbsorption" =
  match firstInDocumentOrder parameters "Material Settings" with
  | Some materialSettings =>
      match valueOf (firstInDocumentOrder materialSettings
                       "Material Absorption") with
      | Some v => Some v
      | None => meta !! "materialAbsorption"
      end
  | None => meta !! "materialAbsorption"
  end.
Proof.
  unfold materialPart.
  destruct (firstInDocumentOrder parameters "Material Settings"); [|done].
  by rewrite lookup_setIfDefined_eq, lookup_setIfDefined_ne.
Qed.

(** Evaluates a lookup in [extractMeta] at a key given as a literal: one
    layer of the chain of assignments at a time. *)
Ltac meta_lookup :=
  rewrite extractMeta_unfold;
  unfold topLevelFields, deepFields;
  cbn [foldl MetaField.metaKey MetaField.parameterName];
  repeat first
    [ rewrite lookup_setIfDefined_eq
    | rewrite lookup_setIfDefined_ne by discriminate
    | rewrite lookup_materialPart_materialRI
    | rewrite lookup_materialPart_materialAbsorption
    | rewrite lookup_materialPart_ne by discriminate
    | rewrite lookup_empty ].

Lemma extractMeta_materialRI parameters :
  extractMeta parameters !! "materialRI" =
  valueOf (firstInDocumentOrder parameters "Material Settings" ≫=
           fun materialSettings =>
             firstInDocumentOrder materialSettings "Material RI").
Proof.
  meta_lookup.
  destruct (firstInDocumentOrder parameters "Material Settings") as [ms|];
    [|done].
  simpl. by destruct (valueOf (firstInDocumentOrder ms "Material RI")).
Qed.

Lemma extractMeta_materialAbsorption parameters :
  extractMeta parameters !! "materialAbsorption" =
  valueOf (firstInDocumentOrder parameters "Material Settings" ≫=
           fun materialSettings =>
             firstInDocumentOrder materialSettings "Material Absorption").
Proof.
  meta_lookup.
  destruct (firstInDocumentOrder parameters "Material Settings") as [ms|];
    [|done].
  simpl. by destruct (valueOf (firstInDocumentOrder ms "Material Absorption")).
Qed.

Lemma extractMeta_topLevelFields parameters :
  Forall (fun field =>
            extractMeta parameters !! MetaField.metaKey field =
            valueOf (findParameter (childrenOrEmpty parameters)
                       (MetaField.parameterName field)))
         topLevelFields.
Proof.
  unfold topLevelFields at 1.
  repeat (apply List.Forall_cons;
          [cbn [MetaField.metaKey MetaField.parameterName]; meta_lookup;
           by destruct (valueOf _) |]).
  apply List.Forall_nil.
Qed.

Lemma extractMeta_deepFields parameters :
  Forall (fun field =>
            extractMeta parameters !! MetaField.metaKey field =
            valueOf (firstInDocumentOrder parameters
                       (MetaField.parameterName field)))
         deepFields.
Proof.
  unfold deepFields at 1.
  repeat (apply List.Forall_cons;
          [cbn [MetaField.metaKey MetaField.parameterName]; meta_lookup;
           by destruct (valueOf _) |]).
  apply List.Forall_nil.
Qed.

Lemma extractMeta_dispersant parameters :
  extractMeta parameters !! "dispersantViscosity" =
    valueOf (firstInDocumentOrder parameters "Dispersant Viscosity (cP)") ∧
  extractMeta parameters !! "dispersantRI" =
    valueOf (firstInDocumentOrder parameters "Dispersant RI").
Proof. split; meta_lookup; by destruct (valueOf _). Qed.

Lemma extractMeta_other_keys parameters key :
  key ∉ metaKeys → extractMeta parameters !! key = None.
Proof.
  unfold metaKeys, topLevelFields, deepFields.
  cbn [fmap list_fmap app MetaField.metaKey].
  rewrite !not_elem_of_cons. intros Hkeys. destruct_and!.
  rewrite extractMeta_unfold. unfold topLevelFields, deepFields.
  cbn [foldl MetaField.metaKey MetaField.parameterName].
  rewrite !lookup_setIfDefined_ne by done.
  rewrite lookup_materialPart_ne by done.
  rewrite !lookup_setIfDefined_ne by done.
  apply lookup_empty.
Qed.

Lemma firstInDocumentOrder_absent parameters name' :
  Forall (fun node => name node ≠ name') (preorder parameters) →
  firstInDocumentOrder parameters name' = None.
Proof.
  intros Habsent. unfold firstInDocumentOrder.
  by apply find_None_Forall, Forall_hasName_false.
Qed.

(** C4: [materialRI] and [materialAbsorption] come only from a search rooted
    at the first node named "Material Settings" in document order: each key
    holds the value of the first node named "Material RI" (respectively
    "Material Absorption") inside that subtree.  Without a
    "Material Settings" node both keys are absent, and when the subtree has
    no node of the name the key is absent whatever the rest of the tree
    holds; there is a tree with a valued "Material RI" node outside the
    subtree and no [materialRI] key. *)
Theorem extractMeta_material_scoped :
  ∀ parameters : ZmesParameter,
    extractMeta parameters !! "materialRI" =
      valueOf (firstInDocumentOrder parameters "Material Settings" ≫=
               fun materialSettings =>
                 firstInDocumentOrder materialSettings "Material RI") ∧
    extractMeta parameters !! "materialAbsorption" =
      valueOf (firstInDocumentOrder parameters "Material Settings" ≫=
               fun materialSettings =>
                 firstInDocumentOrder materialSettings "Material Absorption") ∧
    (firstInDocumentOrder parameters "Material Settings" = None →
     extractMeta parameters !! "materialRI" = None ∧
     extractMeta parameters !! "materialAbsorption" = None) ∧
    (∀ materialSettings,
       firstInDocumentOrder parameters "Material Settings"
         = Some materialSettings →
       (Forall (fun node => name node ≠ "Material RI")
               (preorder materialSettings) →
        extractMeta parameters !! "materialRI" = None) ∧
       (Forall (fun node => name node ≠ "Material Absorption")
               (preorder materialSettings) →
        extractMeta parameters !! "materialAbsorption" = None)) ∧
    (∃ stray,
       stray ∈ preorder strayMaterialTree ∧
       name stray = "Material RI" ∧
       is_Some (value stray) ∧
       extractMeta strayMaterialTree !! "materialRI" = None).
Proof.
  intros parameters.
  rewrite !extractMeta_materialRI, !extractMeta_materialAbsorption.
  split_and!; try done.
  - intros Hnone. by rewrite Hnone.
  - intros materialSettings Hsome. rewrite Hsome. simpl.
    split; intros Habsent; by rewrite firstInDocumentOrder_absent.
  - exists (Node "Material RI" (Some (VNumber 1.25%float)) None).
    split_and!; [|done|by eexists|done].
    simpl. rewrite !elem_of_cons. by right; right; left.
Qed.

Lemma lookup_iff_valueOf {V : Type} (entry : option V) (source : option V)
    (P : V → Prop) :
  entry = source → (∀ v, source = Some v ↔ P v) → ∀ v, entry = Some v ↔ P v.
Proof. by intros ->. Qed.

(** C5: [extractMeta] is total and returns a flat mapping.  Each of its
    sixteen keys is present exactly when its lookup finds a node with a
    defined value, and then holds that value: the first direct child of the
    root with the field's name for the top-level fields, the first node in
    document order for the deep and dispersant fields, the first node inside
    the first "Material Settings" subtree for the material fields.  A key
    whose source is missing or has no value is absent rather than mapped to a
    placeholder, no other key is ever present, and a tree with none of the
    fields gives the empty mapping.  On the sample tree six keys are present
    with the values of their nodes and ten are absent. *)
Theorem extractMeta_keys_iff_sources :
  ∀ parameters : ZmesParameter,
    Forall (fun field =>
              ∀ v,
                extractMeta parameters !! MetaField.metaKey field = Some v ↔
                ∃ node,
                  firstDirectChild parameters
                    (MetaField.parameterName field) node ∧
                  value node = Some v)
           topLevelFields ∧
    Forall (fun field =>
              ∀ v,
                extractMeta parameters !! MetaField.metaKey field = Some v ↔
                ∃ node,
                  firstInDocumentOrder parameters
                    (MetaField.parameterName field) = Some node ∧
                  value node = Some v)
           deepFields ∧
    (∀ v,
       extractMeta parameters !! "materialRI" = Some v ↔
       ∃ materialSettings node,
         firstInDocumentOrder parameters "Material Settings"
           = Some materialSettings ∧
         firstInDocumentOrder materialSettings "Material RI" = Some node ∧
         value node = Some v) ∧
    (∀ v,
       extractMeta parameters !! "materialAbsorption" = Some v ↔
       ∃ materialSettings node,
         firstInDocumentOrder parameters "Material Settings"
           = Some materialSettings ∧
         firstInDocumentOrder materialSettings "Material Absorption"
           = Some node ∧
         value node = Some v) ∧
    (∀ v,
       extractMeta parameters !! "dispersantViscosity" = Some v ↔
       ∃ node,
         firstInDocumentOrder parameters "Dispersant Viscosity (cP)"
           = Some node ∧
         value node = Some v) ∧
    (∀ v,
       extractMeta parameters !! "dispersantRI" = Some v ↔
       ∃ node,
         firstInDocumentOrder parameters "Dispersant RI" = Some node ∧
         value node = Some v) ∧
    (∀ key, key ∉ metaKeys → extractMeta parameters !! key = None) ∧
    extractMeta bareTree = ∅ ∧
    (fun key => extractMeta fullTree !! key) <$> metaKeys =
    [Some (VString "gbf-network"); None; None; Some (VNumber 2%float); None;
     None; None; None; None;
     Some (VNumber 489.125%float); None; None;
     Some (VNumber 1.75%float); Some (VNumber 0.125%float);
     None; Some (VNumber 1.375%float)].
Proof.
  intros parameters.
  assert (∀ (name1 name2 : string) v,
            valueOf (firstInDocumentOrder parameters name1 ≫=
                     fun scope => firstInDocumentOrder scope name2) = Some v ↔
            ∃ scope node,
              firstInDocumentOrder parameters name1 = Some scope ∧
              firstInDocumentOrder scope name2 = Some node ∧
              value node = Some v) as Hscoped.
  { intros name1 name2 v. rewrite valueOf_Some_iff. split.
    - intros (node & Hbind & Hvalue).
      destruct (firstInDocumentOrder parameters name1) as [scope|]; [|done].
      by exists scope, node.
    - intros (scope & node & -> & Hnode & Hvalue). by exists node. }
  split_and!.
  - eapply Forall_impl; [apply extractMeta_topLevelFields|].
    intros field Heq. cbv beta in Heq.
    apply (lookup_iff_valueOf _ _ _ Heq). intros v.
    apply valueOf_findParameter_iff.
  - eapply Forall_impl; [apply extractMeta_deepFields|].
    intros field Heq. cbv beta in Heq.
    apply (lookup_iff_valueOf _ _ _ Heq). intros v. apply valueOf_Some_iff.
  - intros v. rewrite extractMeta_materialRI. apply Hscoped.
  - intros v. rewrite extractMeta_materialAbsorption. apply Hscoped.
  - intros v. rewrite (proj1 (extractMeta_dispersant parameters)).
    apply valueOf_Some_iff.
  - intros v. rewrite (proj2 (extractMeta_dispersant parameters)).
    apply valueOf_Some_iff.
  - intros key. apply extractMeta_other_keys.
  - reflexivity.
  - by vm_compute.
Qed.

(** ** The settings extractor *)

Lemma lookup_setIfNumber_eq parameters (settings : gmap string SettingsEntry)
    parameterName' key :
  setIfNumber parameters settings
    {| SettingsField.parameterName := parameterName';
       SettingsField.settingsKey := key |} !! key =
  match asNumber (valueOf (firstInDocumentOrder parameters parameterName')) with
  | Some x => Some (NumberEntry x)
  | None => settings !! key
  end.
Proof.
  unfold setIfNumber. rewrite findParameterDeep_firstInDocumentOrder.
  destruct (asNumber _); [apply lookup_insert_eq | done].
Qed.

Lemma lookup_setIfNumber_ne parameters (settings : gmap string SettingsEntry) field key :
  key ≠ SettingsField.settingsKey field →
  setIfNumber parameters settings field !! key = settings !! key.
Proof.
  intros Hne. unfold setIfNumber.
  destruct (asNumber _); [by apply lookup_insert_ne | done].
Qed.

(** Evaluates a lookup in [extractSettings] at a key given as a literal. *)
Ltac settings_lookup :=
  unfold extractSettings, instrumentSettingsFields; cbn [foldl];
  repeat first
    [ rewrite lookup_setIfNumber_ne by discriminate
    | rewrite lookup_setIfNumber_eq
    | rewrite lookup_singleton_eq
    | rewrite lookup_singleton_ne by discriminate ].

Lemma extractSettings_instrument parameters :
  extractSettings parameters !! "instrument" =
  Some (InstrumentEntry
          {| Instrument.manufacturer := "Malvern Panalytical";
             Instrument.model := "Zetasizer";
             Instrument.serialNumber :=
               asString (valueOf (firstInDocumentOrder parameters
                                    "Instrument Serial Number"));
             Instrument.software :=
               {| Software.name := "ZS XPLORER";
                  Software.version :=
                    asString (valueOf (findParameter (childrenOrEmpty parameters)
                                         "Software Version")) |} |}).
Proof.
  settings_lookup. by rewrite findParameterDeep_firstInDocumentOrder.
Qed.

Lemma extractSettings_numeric parameters :
  Forall (fun field =>
            extractSettings parameters !! SettingsField.settingsKey field =
            NumberEntry <$>
              asNumber (valueOf (firstInDocumentOrder parameters
                                   (SettingsField.parameterName field))))
         instrumentSettingsFields.
Proof.
  unfold instrumentSettingsFields at 1.
  repeat (apply List.Forall_cons;
          [cbn [SettingsField.settingsKey SettingsField.parameterName];
           settings_lookup; by destruct (asNumber _) |]).
  apply List.Forall_nil.
Qed.

(** C7: [extractSettings] is total, and for every tree its result holds under
    "instrument" the manufacturer "Malvern Panalytical", the model
    "Zetasizer" and the software name "ZS XPLORER".  The serial number is
    there exactly when the first node named "Instrument Serial Number" in
    document order holds a string (and is that string); the software version
    exactly when the first direct child of the root named "Software Version"
    holds a string (and is that string).  For a tree with neither, the
    constants are still there; on the sample tree both are included. *)
Theorem extractSettings_instrument_identity :
  ∀ parameters : ZmesParameter,
    (∃ instrument,
       extractSettings parameters !! "instrument"
         = Some (InstrumentEntry instrument) ∧
       Instrument.manufacturer instrument = "Malvern Panalytical" ∧
       Instrument.model instrument = "Zetasizer" ∧
       Software.name (Instrument.software instrument) = "ZS XPLORER" ∧
       (∀ s,
          Instrument.serialNumber instrument = Some s ↔
          ∃ node,
            firstInDocumentOrder parameters "Instrument Serial Number"
              = Some node ∧
            value node = Some (VString s)) ∧
       (∀ s,
          Software.version (Instrument.software instrument) = Some s ↔
          ∃ node,
            firstDirectChild parameters "Software Version" node ∧
            value node = Some (VString s))) ∧
    extractSettings bareTree !! "instrument" =
      Some (InstrumentEntry
              {| Instrument.manufacturer := "Malvern Panalytical";
                 Instrument.model := "Zetasizer";
                 Instrument.serialNumber := None;
                 Instrument.software :=
                   {| Software.name := "ZS XPLORER";
                      Software.version := None |} |}) ∧
    extractSettings fullTree !! "instrument" =
      Some (InstrumentEntry
              {| Instrument.manufacturer := "Malvern Panalytical";
                 Instrument.model := "Zetasizer";
                 Instrument.serialNumber := Some "100038577";
                 Instrument.software :=
                   {| Software.name := "ZS XPLORER";
                      Software.version := Some "4.1.0.82" |} |}).
Proof.
  intros parameters. split_and!.
  - eexists. split; [apply extractSettings_instrument|].
    cbn [Instrument.manufacturer Instrument.model Instrument.software
         Instrument.serialNumber Software.name Software.version].
    split_and!; try done.
    + intros s. rewrite asString_Some_iff. apply valueOf_Some_iff.
    + intros s. rewrite asString_Some_iff. apply valueOf_findParameter_iff.
  - by rewrite extractSettings_instrument.
  - by rewrite extractSettings_instrument.
Qed.


(** ** The definitions on the sample trees *)

Example findParameterDeep_earlier_wins :
  findParameterDeep shadowedSizesTree "Sizes" =
  Some (Node "Sizes" (Some (VString "see below")) None).
Proof. reflexivity. Qed.

Example buildVariables_fullTree_symbols :
  (fun variables => (variables !! "x", variables !! "v", variables !! "w"))
    <$> buildVariables fullTree =
  Some (Some {| MeasurementVariable.symbol := "x";
                MeasurementVariable.label := "Particle diameter";
                MeasurementVariable.units := "nm";
                MeasurementVariable.data := [0.25%float; 10000%float];
                MeasurementVariable.isDependent := false |},
        Some {| MeasurementVariable.symbol := "v";
                MeasurementVariable.label := "Volume";
                MeasurementVariable.units := "%";
                MeasurementVariable.data := [1%float; 99%float];
                MeasurementVariable.isDependent := true |},
        None).
Proof. by vm_compute. Qed.

Example buildVariables_fullTree_dom :
  dom <$> buildVariables fullTree = Some ({["x"; "y"; "v"]} : gset string).
Proof. by vm_compute. Qed.

Example optionalDescriptors_symbols :
  symbol <$> optionalDescriptors = ["v"; "n"; "w"; "d"; "r"; "f"].
Proof. reflexivity. Qed.

Example buildVariables_shadowedSizesTree :
  buildVariables shadowedSizesTree = None.
Proof. reflexivity. Qed.

Example extractTitle_fullTree : extractTitle fullTree = "TEST XX230.A".
Proof. reflexivity. Qed.

Example extractTitle_bareTree : extractTitle bareTree = "".
Proof. reflexivity. Qed.

Example extractMeta_fullTree_materialRI :
  extractMeta fullTree !! "materialRI" = Some (VNumber 1.75%float).
Proof. by vm_compute. Qed.

Example extractMeta_fullTree_lookups :
  (fun key => extractMeta fullTree !! key) <$>
    ["operatorName"; "numberOfRepeats"; "zAverage"; "materialAbsorption";
     "dispersantViscosity"; "dispersantRI"] =
  [Some (VString "gbf-network"); None; Some (VNumber 489.125%float);
   Some (VNumber 0.125%float); None; Some (VNumber 1.375%float)].
Proof. by vm_compute. Qed.

Example fromZmes_sampleFile_ids :
  MeasurementXY.id <$>
    Analysis.spectra
      (fromZmes sampleFile
         {| FromZmesOptions.id := None; FromZmesOptions.label := None |}) =
  ["f5e0a56f-3426-427a-91ca-731e963cc86b";
   "00000000-0000-0000-0000-000000000003"].
Proof. by vm_compute. Qed.

Example fromZmes_sampleFile_settings :
  (fun spectrum =>
     MeasurementXY.settings spectrum ≫=
     fun settings : gmap string SettingsEntry => settings !! "detectorAngle") <$>
    Analysis.spectra
      (fromZmes sampleFile
         {| FromZmesOptions.id := None; FromZmesOptions.label := None |}) =
  [Some (NumberEntry 173%float); Some (NumberEntry 173%float)].
Proof. by vm_compute. Qed.

(** ** Further properties of the tree accessor *)

Lemma preorder_self parameter : parameter ∈ preorder parameter.
Proof. destruct parameter as [n v cs]. apply list_elem_of_here. Qed.

Lemma preorder_trans parameter inner node :
  inner ∈ preorder parameter → node ∈ preorder inner →
  node ∈ preorder parameter.
Proof.
  induction parameter as [n v | n v cs IH] using ZmesParameter_tree_ind;
    cbn [preorder children]; intros Hinner Hnode.
  - apply list_elem_of_singleton in Hinner as ->. exact Hnode.
  - apply elem_of_cons in Hinner as [->|Hinner]; [exact Hnode|].
    apply list_elem_of_further.
    apply list_elem_of_In, in_flat_map in Hinner as (child & Hchild & Hinner).
    apply list_elem_of_In, in_flat_map. exists child. split; [done|].
    apply list_elem_of_In. rewrite Forall_forall in IH.
    apply IH; [by apply list_elem_of_In | by apply list_elem_of_In | done].
Qed.

Lemma preorder_child parameter child :
  child ∈ childrenOrEmpty parameter → child ∈ preorder parameter.
Proof.
  destruct parameter as [n v [cs|]]; cbn [childrenOrEmpty children default];
    [|by intros ?%elem_of_nil].
  intros Hchild. cbn [preorder children]. apply list_elem_of_further.
  apply list_elem_of_In, in_flat_map. exists child.
  split; apply list_elem_of_In; [done | apply preorder_self].
Qed.

Lemma find_Some_elem {B : Type} (f : B → bool) (l : list B) (b : B) :
  List.find f l = Some b → b ∈ l ∧ f b = true.
Proof.
  intros (before & after & -> & Hb & _)%find_Some_split. split; [|done].
  apply elem_of_app. right. apply list_elem_of_here.
Qed.

Lemma firstInDocumentOrder_elem parameter name' node :
  firstInDocumentOrder parameter name' = Some node →
  node ∈ preorder parameter ∧ name node = name'.
Proof.
  intros [Hin Hname]%find_Some_elem. split; [done | by apply hasName_true].
Qed.

Lemma findParameter_elem (children' : list ZmesParameter) name' child :
  findParameter children' name' = Some child →
  child ∈ children' ∧ name child = name'.
Proof.
  unfold findParameter. fold (hasName name').
  intros [Hin Hname]%find_Some_elem. split; [done | by apply hasName_true].
Qed.

(** X2: [findParameterDeep] finds a node exactly when the tree has a node
    with the searched name: the search never misses a node, at any depth. *)
Theorem findParameterDeep_is_Some_iff :
  ∀ (parameter : ZmesParameter) (name' : string),
    is_Some (findParameterDeep parameter name') ↔
    ∃ node, node ∈ preorder parameter ∧ name node = name'.
Proof.
  intros parameter name'. rewrite findParameterDeep_firstInDocumentOrder.
  split.
  - intros [node Hnode]. exists node. by apply firstInDocumentOrder_elem.
  - intros (node & Hin & Hname).
    destruct (firstInDocumentOrder parameter name') as [found|] eqn:Hfind;
      [by eexists|].
    apply find_None_Forall in Hfind. rewrite Forall_forall in Hfind.
    apply Hfind, hasName_false in Hin. done.
Qed.

(** X3: searching again from the node [findParameterDeep] returned, for the
    same name, returns that node: the root of a search is checked first. *)
Theorem findParameterDeep_found_again :
  ∀ (parameter found : ZmesParameter) (name' : string),
    findParameterDeep parameter name' = Some found →
    findParameterDeep found name' = Some found.
Proof.
  intros parameter found name'.
  rewrite findParameterDeep_firstInDocumentOrder.
  intros [_ Hname]%firstInDocumentOrder_elem.
  destruct found as [n v cs]. cbn [name] in Hname. subst n.
  cbn [findParameterDeep name]. by rewrite String.eqb_refl.
Qed.

Lemma findParameterDeep_found_again_witness :
  findParameterDeep
    (Node "Material RI" (Some (VNumber 1.25%float)) None) "Material RI" =
  Some (Node "Material RI" (Some (VNumber 1.25%float)) None).
Proof.
  apply (findParameterDeep_found_again fullTree). reflexivity.
Defined.

(** X4: a scoped search stays inside the tree.  A node found by searching
    from a node that was itself found in a tree is a node of that tree, lies
    in the subtree searched, and has the name searched for. *)
Theorem findParameterDeep_scoped_in_tree :
  ∀ (parameter scope node : ZmesParameter) (scopeName name' : string),
    findParameterDeep parameter scopeName = Some scope →
    findParameterDeep scope name' = Some node →
    node ∈ preorder parameter ∧ node ∈ preorder scope ∧ name node = name'.
Proof.
  intros parameter scope node scopeName name'.
  rewrite !findParameterDeep_firstInDocumentOrder.
  intros [Hscope _]%firstInDocumentOrder_elem
         [Hnode Hname]%firstInDocumentOrder_elem.
  split_and!; [|done|done]. by apply (preorder_trans _ scope).
Qed.

Lemma findParameterDeep_scoped_in_tree_witness :
  Node "Material RI" (Some (VNumber 1.75%float)) None ∈ preorder fullTree ∧
  Node "Material RI" (Some (VNumber 1.75%float)) None ∈
    preorder
      (Node "Material Settings" None (Some [
         Node "Material RI" (Some (VNumber 1.75%float)) None;
         Node "Material Absorption" (Some (VNumber 0.125%float)) None ])) ∧
  name (Node "Material RI" (Some (VNumber 1.75%float)) None) = "Material RI".
Proof.
  apply (findParameterDeep_scoped_in_tree fullTree _ _ "Material Settings");
    reflexivity.
Defined.

(** ** Further properties of the variable assembler *)

Lemma resolveSymbol_Some descriptors parameters key variable :
  resolveSymbol descriptors parameters key = Some variable →
  ∃ descriptor,
    descriptor ∈ descriptors ∧ symbol descriptor = key ∧
    resolve parameters descriptor = Some variable.
Proof.
  unfold resolveSymbol.
  destruct (List.find (hasSymbol key) descriptors) as [descriptor|] eqn:Hfind;
    [|done].
  apply find_Some_elem in Hfind as [Hin Hsym]. apply hasSymbol_true in Hsym.
  intros Hresolve. by exists descriptor.
Qed.

Lemma buildVariables_required parameters variables :
  buildVariables parameters = Some variables →
  is_Some (variables !! "x") ∧ is_Some (variables !! "y").
Proof.
  intros Hbuild.
  assert (buildVariables parameters ≠ None) as Hsome by congruence.
  unfold buildVariables in Hsome.
  rewrite buildVariablesWith_None in Hsome
    by apply VARIABLE_DESCRIPTORS_symbols_NoDup.
  rewrite !(buildVariables_lookup _ _ _ Hbuild).
  split.
  - destruct (resolveSymbol _ _ "x"); [eauto | destruct Hsome; by left].
  - destruct (resolveSymbol _ _ "y"); [eauto | destruct Hsome; by right].
Qed.

(** X5: every variable of a returned set is filed under its own symbol and
    is built from one descriptor of the table: it has the descriptor's
    symbol, label, units and dependence flag, and its data is, unchanged, the
    [Float64Array] held by the first node in document order with the
    descriptor's parameter name. *)
Theorem buildVariables_entry :
  ∀ (parameters : ZmesParameter)
    (variables : gmap string MeasurementVariable.t)
    (key : string) (variable : MeasurementVariable.t),
    buildVariables parameters = Some variables →
    variables !! key = Some variable →
    MeasurementVariable.symbol variable = key ∧
    ∃ descriptor node,
      descriptor ∈ VARIABLE_DESCRIPTORS ∧
      symbol descriptor = key ∧
      MeasurementVariable.label variable = label descriptor ∧
      MeasurementVariable.units variable = units descriptor ∧
      MeasurementVariable.isDependent variable = isDependent descriptor ∧
      firstInDocumentOrder parameters (parameterName descriptor) = Some node ∧
      value node = Some (VFloat64Array (MeasurementVariable.data variable)).
Proof.
  intros parameters variables key variable Hbuild Hlookup.
  rewrite (buildVariables_lookup _ _ _ Hbuild) in Hlookup.
  apply resolveSymbol_Some in Hlookup as (descriptor & Hin & Hsym & Hresolve).
  unfold resolve in Hresolve.
  destruct (firstInDocumentOrder parameters (parameterName descriptor))
    as [node|] eqn:Hfirst; [|done].
  cbn [valueOf mbind option_bind] in Hresolve.
  destruct (value node) as [[s|x|b|data|data]|] eqn:Hvalue; try done.
  cbn [asFloat64Array] in Hresolve. injection Hresolve as <-.
  split; [done|]. by exists descriptor, node.
Qed.

Lemma buildVariables_entry_witness :
  MeasurementVariable.symbol
    {| MeasurementVariable.symbol := "v";
       MeasurementVariable.label := "Volume";
       MeasurementVariable.units := "%";
       MeasurementVariable.data := [1%float; 99%float];
       MeasurementVariable.isDependent := true |} = "v" ∧
  ∃ descriptor node,
    descriptor ∈ VARIABLE_DESCRIPTORS ∧
    symbol descriptor = "v" ∧
    "Volume" = label descriptor ∧
    "%" = units descriptor ∧
    true = isDependent descriptor ∧
    firstInDocumentOrder fullTree (parameterName descriptor) = Some node ∧
    value node = Some (VFloat64Array [1%float; 99%float]).
Proof.
  apply (buildVariables_entry fullTree
           (default ∅ (buildVariables fullTree)) "v"); by vm_compute.
Defined.

(** X6: a returned variable set always has the keys [x] and [y], has no key
    besides the eight symbols of the descriptor table, and so holds between
    two and eight variables. *)
Theorem buildVariables_dom :
  ∀ (parameters : ZmesParameter)
    (variables : gmap string MeasurementVariable.t),
    buildVariables parameters = Some variables →
    ({["x"; "y"]} : gset string) ⊆ dom variables ∧
    dom variables ⊆ descriptorSymbols ∧
    (2 ≤ size variables ≤ 8)%nat.
Proof.
  intros parameters variables Hbuild.
  destruct (buildVariables_required _ _ Hbuild) as [Hx Hy].
  assert (({["x"; "y"]} : gset string) ⊆ dom variables) as Hlower.
  { intros key [->%elem_of_singleton | ->%elem_of_singleton]%elem_of_union;
      by apply elem_of_dom. }
  assert (dom variables ⊆ descriptorSymbols) as Hupper.
  { intros key [variable Hlookup]%elem_of_dom.
    rewrite (buildVariables_lookup _ _ _ Hbuild) in Hlookup.
    apply resolveSymbol_Some in Hlookup as (descriptor & Hin & <- & _).
    apply elem_of_list_to_set. by apply list_elem_of_fmap_2. }
  split_and!; [done | done | |].
  - apply subseteq_size in Hlower. rewrite size_dom in Hlower.
    by rewrite size_union, !size_singleton in Hlower
      by (by apply disjoint_singleton_l, not_elem_of_singleton).
  - apply subseteq_size in Hupper. by rewrite size_dom in Hupper.
Qed.

Lemma buildVariables_dom_witness :
  ({["x"; "y"]} : gset string) ⊆ dom (default ∅ (buildVariables fullTree)) ∧
  dom (default ∅ (buildVariables fullTree)) ⊆ descriptorSymbols ∧
  (2 ≤ size (default ∅ (buildVariables fullTree)) ≤ 8)%nat.
Proof.
  apply (buildVariables_dom fullTree). by vm_compute.
Defined.

(** ** Further properties of the record orchestrator *)

Lemma fromZmes_spectra zmesFile options :
  Analysis.spectra (fromZmes zmesFile options) =
  omap spectrumOf (records zmesFile).
Proof. unfold fromZmes. by rewrite foldl_processRecord_spectra. Qed.

Lemma spectrumOf_is_Some record :
  is_Some (spectrumOf record) ↔ is_Some (buildVariables (parameters record)).
Proof.
  unfold spectrumOf. destruct (buildVariables (parameters record));
    split; intros [? ?]; by eauto.
Qed.

Lemma length_omap_le {A B : Type} (f : A → option B) (l : list A) :
  (length (omap f l) ≤ length l)%nat.
Proof.
  induction l as [|a l IH]; cbn [omap list_omap length]; [done|].
  destruct (f a); cbn [length]; lia.
Qed.

Lemma length_omap_eq {A B : Type} (f : A → option B) (l : list A) :
  length (omap f l) = length l ↔ Forall (fun a => is_Some (f a)) l.
Proof.
  induction l as [|a l IH]; cbn [omap list_omap length].
  - split; [constructor | done].
  - pose proof (length_omap_le f l) as Hle.
    destruct (f a) as [b|] eqn:Hfa; cbn [length].
    + split.
      * intros [= Hlen]. constructor; [by rewrite Hfa | by apply IH].
      * intros Hall. inversion_clear Hall as [|? ? _ Hrest].
        f_equal. by apply IH.
    + split; [lia|].
      intros Hall. inversion_clear Hall as [|? ? Hsome _].
      rewrite Hfa in Hsome. by destruct Hsome.
Qed.

(** X7: every entry [fromZmes] produces has the data type
    "Size measurement", has its settings attached, and has both an [x] and a
    [y] variable. *)
Theorem fromZmes_entries_shape :
  ∀ (zmesFile : ZmesFile) (options : FromZmesOptions.t),
    Forall (fun spectrum =>
              MeasurementXY.dataType spectrum = "Size measurement" ∧
              is_Some (MeasurementXY.settings spectrum) ∧
              is_Some (MeasurementXY.variables spectrum !! "x") ∧
              is_Some (MeasurementXY.variables spectrum !! "y"))
           (Analysis.spectra (fromZmes zmesFile options)).
Proof.
  intros zmesFile options. rewrite fromZmes_spectra.
  apply Forall_forall. intros spectrum Hin.
  apply list_elem_of_omap in Hin as (record & _ & Hspectrum).
  unfold spectrumOf in Hspectrum.
  destruct (buildVariables (parameters record)) as [variables|] eqn:Hbuild;
    [|done].
  injection Hspectrum as <-. cbn.
  destruct (buildVariables_required _ _ Hbuild) as [Hx Hy].
  split_and!; [done | by eexists | done | done].
Qed.

(** X8: the records are processed independently of one another.  The
    collection for a file whose records are two lists one after the other is
    the collection for the first list followed by the collection for the
    second, and the options given do not change the entries. *)
Theorem fromZmes_app :
  ∀ (first second : list ZmesRecord) (options options' : FromZmesOptions.t),
    Analysis.spectra (fromZmes {| records := first ++ second |} options) =
    Analysis.spectra (fromZmes {| records := first |} options) ++
    Analysis.spectra (fromZmes {| records := second |} options').
Proof.
  intros first second options options'.
  rewrite !fromZmes_spectra. cbn [records]. apply omap_app.
Qed.

(** X9: [fromZmes] never produces more entries than the file has records,
    and it produces as many exactly when [buildVariables] finds the variable
    set of every record. *)
Theorem fromZmes_length :
  ∀ (zmesFile : ZmesFile) (options : FromZmesOptions.t),
    (length (Analysis.spectra (fromZmes zmesFile options))
       ≤ length (records zmesFile))%nat ∧
    (length (Analysis.spectra (fromZmes zmesFile options))
       = length (records zmesFile) ↔
     Forall (fun record => is_Some (buildVariables (parameters record)))
            (records zmesFile)).
Proof.
  intros zmesFile options. rewrite fromZmes_spectra.
  split; [apply length_omap_le|].
  rewrite length_omap_eq. apply Forall_proper; [|done].
  intros record. apply spectrumOf_is_Some.
Qed.

(** ** Further properties of the title and metadata extractors *)

Lemma valueOf_Some (found : option ZmesParameter) (v : Value) :
  valueOf found = Some v → ∃ node, found = Some node ∧ value node = Some v.
Proof. destruct found as [node|]; [|done]. intros Hv. by exists node. Qed.

(** X10: a title that is not empty is always read from the tree: it is the
    string value of a node named "Sample Name" that lies inside a direct
    child of the root named "Sample Settings". *)
Theorem extractTitle_from_tree :
  ∀ parameters : ZmesParameter,
    extractTitle parameters ≠ "" →
    ∃ sampleSettings sampleName,
      sampleSettings ∈ childrenOrEmpty parameters ∧
      name sampleSettings = "Sample Settings" ∧
      sampleName ∈ preorder sampleSettings ∧
      sampleName ∈ preorder parameters ∧
      name sampleName = "Sample Name" ∧
      value sampleName = Some (VString (extractTitle parameters)).
Proof.
  intros parameters. unfold extractTitle.
  destruct (findParameter (childrenOrEmpty parameters) "Sample Settings")
    as [sampleSettings|] eqn:Hsettings; [|done].
  apply findParameter_elem in Hsettings as [Hchild Hname].
  rewrite findParameterDeep_firstInDocumentOrder.
  destruct (firstInDocumentOrder sampleSettings "Sample Name")
    as [sampleName|] eqn:Hsample; [|done].
  apply firstInDocumentOrder_elem in Hsample as [Hin HsampleName].
  cbn [valueOf mbind option_bind].
  destruct (value sampleName) as [[s|x|b|data|data]|] eqn:Hvalue; try done.
  cbn [asString]. intros _. exists sampleSettings, sampleName.
  split_and!; try done.
  apply (preorder_trans _ sampleSettings); [by apply preorder_child | done].
Qed.

Lemma extractTitle_from_tree_witness :
  ∃ sampleSettings sampleName,
    sampleSettings ∈ childrenOrEmpty fullTree ∧
    name sampleSettings = "Sample Settings" ∧
    sampleName ∈ preorder sampleSettings ∧
    sampleName ∈ preorder fullTree ∧
    name sampleName = "Sample Name" ∧
    value sampleName = Some (VString (extractTitle fullTree)).
Proof.
  apply (extractTitle_from_tree fullTree). by vm_compute.
Defined.

(** X11: [extractMeta] invents nothing.  Every value in its result sits
    under one of the sixteen metadata keys and is, unchanged, the value of a
    node of the tree. *)
Theorem extractMeta_values_from_tree :
  ∀ (parameters : ZmesParameter) (key : string) (v : Value),
    extractMeta parameters !! key = Some v →
    key ∈ metaKeys ∧
    ∃ node, node ∈ preorder parameters ∧ value node = Some v.
Proof.
  intros parameters key v Hlookup.
  destruct (decide (key ∈ metaKeys)) as [Hkey|Hkey];
    [|by rewrite extractMeta_other_keys in Hlookup].
  split; [done|].
  unfold metaKeys in Hkey. rewrite !elem_of_app in Hkey.
  destruct Hkey as [Hkey|[Hkey|Hkey]].
  - apply list_elem_of_fmap in Hkey as (field & -> & Hfield).
    pose proof (extractMeta_topLevelFields parameters) as Hall.
    rewrite Forall_forall in Hall. rewrite (Hall _ Hfield) in Hlookup.
    apply valueOf_Some in Hlookup as (node & Hfind & Hvalue).
    apply findParameter_elem in Hfind as [Hin _].
    exists node. split; [by apply preorder_child | done].
  - apply list_elem_of_fmap in Hkey as (field & -> & Hfield).
    pose proof (extractMeta_deepFields parameters) as Hall.
    rewrite Forall_forall in Hall. rewrite (Hall _ Hfield) in Hlookup.
    apply valueOf_Some in Hlookup as (node & Hfind & Hvalue).
    apply firstInDocumentOrder_elem in Hfind as [Hin _]. by exists node.
  - rewrite !elem_of_cons, elem_of_nil in Hkey.
    destruct (extractMeta_dispersant parameters) as [Hviscosity Hri].
    destruct Hkey as [->|[->|[->|[->|[]]]]].
    + rewrite extractMeta_materialRI in Hlookup.
      apply valueOf_Some in Hlookup as (node & Hfind & Hvalue).
      destruct (firstInDocumentOrder parameters "Material Settings")
        as [materialSettings|] eqn:Hsettings; [|done].
      apply firstInDocumentOrder_elem in Hsettings as [Hsettings _].
      apply firstInDocumentOrder_elem in Hfind as [Hin _].
      exists node. split; [by apply (preorder_trans _ materialSettings) | done].
    + rewrite extractMeta_materialAbsorption in Hlookup.
      apply valueOf_Some in Hlookup as (node & Hfind & Hvalue).
      destruct (firstInDocumentOrder parameters "Material Settings")
        as [materialSettings|] eqn:Hsettings; [|done].
      apply firstInDocumentOrder_elem in Hsettings as [Hsettings _].
      apply firstInDocumentOrder_elem in Hfind as [Hin _].
      exists node. split; [by apply (preorder_trans _ materialSettings) | done].
    + rewrite Hviscosity in Hlookup.
      apply valueOf_Some in Hlookup as (node & Hfind & Hvalue).
      apply firstInDocumentOrder_elem in Hfind as [Hin _]. by exists node.
    + rewrite Hri in Hlookup.
      apply valueOf_Some in Hlookup as (node & Hfind & Hvalue).
      apply firstInDocumentOrder_elem in Hfind as [Hin _]. by exists node.
Qed.

Lemma extractMeta_values_from_tree_witness :
  "zAverage" ∈ metaKeys ∧
  ∃ node, node ∈ preorder fullTree ∧
          value node = Some (VNumber 489.125%float).
Proof.
  apply (extractMeta_values_from_tree fullTree). by vm_compute.
Defined.

(** ** Further properties of the settings extractor *)

Lemma extractSettings_other_keys parameters key :
  key ∉ settingsKeys → extractSettings parameters !! key = None.
Proof.
  unfold settingsKeys, instrumentSettingsFields.
  cbn [fmap list_fmap SettingsField.settingsKey].
  rewrite !not_elem_of_cons. intros Hkeys. destruct_and!.
  unfold extractSettings, instrumentSettingsFields. cbn [foldl].
  rewrite !lookup_setIfNumber_ne by done.
  by apply lookup_singleton_ne.
Qed.

Lemma extractSettings_numeric_key parameters key :
  key ∈ SettingsField.settingsKey <$> instrumentSettingsFields →
  ∃ field,
    field ∈ instrumentSettingsFields ∧
    SettingsField.settingsKey field = key ∧
    extractSettings parameters !! key =
    NumberEntry <$>
      asNumber (valueOf (firstInDocumentOrder parameters
                           (SettingsField.parameterName field))).
Proof.
  intros (field & -> & Hfield)%list_elem_of_fmap.
  pose proof (extractSettings_numeric parameters) as Hall.
  rewrite Forall_forall in Hall. exists field. split_and!; [done | done |].
  by apply Hall.
Qed.

(** X12: the settings object has no key besides "instrument" and the eight
    numeric settings keys, and the two kinds never mix: the nested instrument
    object is found under "instrument" only, and "instrument" never holds a
    number. *)
Theorem extractSettings_keys :
  ∀ parameters : ZmesParameter,
    (∀ key, key ∉ settingsKeys → extractSettings parameters !! key = None) ∧
    (∀ key instrument,
       extractSettings parameters !! key = Some (InstrumentEntry instrument) →
       key = "instrument") ∧
    (∀ x, extractSettings parameters !! "instrument" ≠ Some (NumberEntry x)).
Proof.
  intros parameters. split_and!.
  - intros key. apply extractSettings_other_keys.
  - intros key instrument Hlookup.
    destruct (decide (key ∈ settingsKeys)) as [Hkey|Hkey];
      [|by rewrite extractSettings_other_keys in Hlookup].
    unfold settingsKeys in Hkey. apply elem_of_cons in Hkey as [->|Hkey]; [done|].
    apply (extractSettings_numeric_key parameters) in Hkey
      as (field & _ & _ & Heq).
    rewrite Heq in Hlookup. by destruct (asNumber _).
  - intros x. by rewrite extractSettings_instrument.
Qed.

(** X13: [extractSettings] invents no number.  A number in its result sits
    under the settings key of one entry of the numeric settings table and is,
    unchanged, the numeric value of the first node in document order with
    that entry's parameter name. *)
Theorem extractSettings_numbers_from_tree :
  ∀ (parameters : ZmesParameter) (key : string) (x : float),
    extractSettings parameters !! key = Some (NumberEntry x) →
    ∃ field node,
      field ∈ instrumentSettingsFields ∧
      SettingsField.settingsKey field = key ∧
      firstInDocumentOrder parameters (SettingsField.parameterName field)
        = Some node ∧
      node ∈ preorder parameters ∧
      value node = Some (VNumber x).
Proof.
  intros parameters key x Hlookup.
  destruct (decide (key ∈ settingsKeys)) as [Hkey|Hkey];
    [|by rewrite extractSettings_other_keys in Hlookup].
  unfold settingsKeys in Hkey. apply elem_of_cons in Hkey as [->|Hkey].
  { by rewrite extractSettings_instrument in Hlookup. }
  apply (extractSettings_numeric_key parameters) in Hkey
    as (field & Hfield & HsettingsKey & Heq).
  rewrite Heq in Hlookup.
  destruct (firstInDocumentOrder parameters (SettingsField.parameterName field))
    as [node|] eqn:Hfirst; [|done].
  cbn [valueOf mbind option_bind] in Hlookup.
  destruct (value node) as [[s|y|b|data|data]|] eqn:Hvalue; try done.
  cbn in Hlookup. injection Hlookup as ->.
  exists field, node. split_and!; try done.
  by apply firstInDocumentOrder_elem in Hfirst as [Hin _].
Qed.

Lemma extractSettings_numbers_from_tree_witness :
  ∃ field node,
    field ∈ instrumentSettingsFields ∧
    SettingsField.settingsKey field = "detectorAngle" ∧
    firstInDocumentOrder fullTree (SettingsField.parameterName field)
      = Some node ∧
    node ∈ preorder fullTree ∧
    value node = Some (VNumber 173%float).
Proof.
  apply (extractSettings_numbers_from_tree fullTree). by vm_compute.
Defined.

(** X14: one pass of the record loop leaves the entries already in the
    collection as they are, whatever they hold: it appends the record's entry
    with its settings attached, or nothing when the record is skipped, and
    the settings are written to the appended entry only.  The collection's
    options are not touched. *)
Theorem processRecord_keeps_earlier_entries :
  ∀ (analysis : Analysis.t) (record : ZmesRecord),
    Analysis.spectra (processRecord analysis record) =
      Analysis.spectra analysis ++ option_list (spectrumOf record) ∧
    Analysis.options (processRecord analysis record) =
      Analysis.options analysis.
Proof.
  intros analysis record. split; [apply processRecord_spectra|].
  unfold processRecord.
  destruct (buildVariables (parameters record)) as [variables|]; [|done].
  by destruct (Analysis.lastSpectrum _).
Qed.
